(** * RealtimeVoting: the Streamlit election dashboard

    A shallow embedding of [streamlit-app.py]: the scalar statistics read,
    the Kafka batch fetch, the pandas reduction
    [df.loc[df.groupby(key)[counter].idxmax()]], the leading-candidate
    selection and the paginated table, followed by the properties the
    specification states about them.

    Conventions.
    - Python [int] is [Z]; [len], positions and index labels are [nat].
    - A call that may raise returns a [result]; Streamlit calls append to an
      event log ([ui]).
    - A [DataFrame] is the list of its rows in positional order, each paired
      with its index label. *)

From Stdlib Require Import ZArith Lia.
From stdpp Require Import base list strings sorting.

Local Open Scope Z_scope.

(** ** Exceptions and results *)

(** The exception classes the script can meet.  [OtherError] stands for the
    exceptions of the database driver and the Kafka client; every class here
    derives from Python's [Exception]. *)
Inductive exn : Type :=
  | ValueError (msg : string)
  | KeyError (msg : string)
  | IndexError (msg : string)
  | TypeError (msg : string)
  | OtherError (msg : string).

(** [str(e)] *)
Definition exn_str (e : exn) : string :=
  match e with
  | ValueError m | KeyError m | IndexError m | TypeError m | OtherError m => m
  end.

Inductive result (A : Type) : Type :=
  | Ok (a : A)
  | Raise (e : exn).
Arguments Ok {A} a.
Arguments Raise {A} e.

Definition rbind {A B} (m : result A) (f : A -> result B) : result B :=
  match m with
  | Ok a => f a
  | Raise e => Raise e
  end.

Declare Scope py_scope.
Delimit Scope py_scope with py.
Notation "'let*' x ':=' m 'in' k" := (rbind m (fun x => k))
  (at level 10, x pattern, m at level 100, k at level 200) : py_scope.
Local Open Scope py_scope.

Fixpoint rmapM {A B} (f : A -> result B) (l : list A) : result (list B) :=
  match l with
  | [] => Ok []
  | a :: l' =>
      let* b := f a in
      let* bs := rmapM f l' in
      Ok (b :: bs)
  end.

(** ** Python built-ins *)

(** [range(start, stop, step)], materialised. *)
Definition py_range (start stop step : Z) : result (list Z) :=
  if step =? 0 then Raise (ValueError "range() arg 3 must not be zero")
  else
    let n :=
      if 0 <? step
      then (if start <? stop then (stop - start - 1) / step + 1 else 0)
      else (if stop <? start then (start - stop - 1) / (- step) + 1 else 0) in
    Ok (map (fun i : nat => start + Z.of_nat i * step) (seq 0 (Z.to_nat n))).

(** Bound of a slice [a:b] on a sequence of length [len]: a negative bound
    counts from the end, and the bound is clipped to [0, len]. *)
Definition slice_bound (len : nat) (i : Z) : nat :=
  let i' := if i <? 0 then i + Z.of_nat len else i in
  Z.to_nat (Z.min (Z.max i' 0) (Z.of_nat len)).

(** [l[a:b]] *)
Definition py_slice {A} (l : list A) (a b : Z) : list A :=
  let lo := slice_bound (length l) a in
  let hi := slice_bound (length l) b in
  take (hi - lo) (drop lo l).

(** [l[i]] on a list: a negative index counts from the end. *)
Definition py_getitem {A} (l : list A) (i : Z) : result A :=
  let i' := if i <? 0 then i + Z.of_nat (length l) else i in
  if i' <? 0 then Raise (IndexError "list index out of range")
  else match l !! Z.to_nat i' with
       | Some a => Ok a
       | None => Raise (IndexError "list index out of range")
       end.

(** ** pandas *)

(** Index labels: the positions of a [RangeIndex]. *)
Abbreviation label := nat (only parsing).

(** A frame: rows in positional order, each with its index label. *)
Abbreviation frame R := (list (label * R)) (only parsing).

Fixpoint with_index {R} (i : label) (data : list R) : frame R :=
  match data with
  | [] => []
  | r :: data' => (i, r) :: with_index (S i) data'
  end.

(** [pd.DataFrame(data)] for a list with records: a fresh [RangeIndex]
    0, 1, ...  (For the empty list pandas builds a frame without any column;
    [reduce] below has that case.) *)
Definition DataFrame {R} (data : list R) : frame R := with_index 0%nat data.

(** [df.reset_index(drop=True)] *)
Definition reset_index {R} (df : frame R) : frame R := DataFrame (map snd df).

(** [df.empty] (the frames here always have columns). *)
Definition df_empty {R} (df : frame R) : bool :=
  match df with [] => true | _ => false end.

(** [df.iloc[a:b]]: a positional slice, labels kept. *)
Definition iloc {R} (df : frame R) (a b : Z) : frame R := py_slice df a b.

(** A column of a frame as a Series of integers. *)
Definition column {R} (col : R -> Z) (df : frame R) : list (label * Z) :=
  map (fun p => (fst p, col (snd p))) df.

(** [Series.idxmax()]: label of the first occurrence of the maximum. *)
Definition pick (best cur : label * Z) : label * Z :=
  if snd best <? snd cur then cur else best.

Definition idxmax (s : list (label * Z)) : result label :=
  match s with
  | [] => Raise (ValueError "attempt to get argmax of an empty sequence")
  | x :: s' => Ok (fst (fold_left pick s' x))
  end.

(** Rows of [df] whose label is [l]. *)
Definition rows_at {R} (df : frame R) (l : label) : frame R :=
  filter (fun p => fst p = l) df.

(** [df.loc[labels]] with a list of labels: the rows of each label in turn;
    a label that is not in the index raises [KeyError]. *)
Definition loc_labels {R} (df : frame R) (labels : list label) : result (frame R) :=
  let* parts :=
    rmapM (fun l => match rows_at df l with
                    | [] => Raise (KeyError "label not in index")
                    | rows => Ok rows
                    end) labels in
  Ok (concat parts).

(** [df.loc[l]] with one label, used as a single row.  A label carried by
    several rows yields a sub-frame in pandas, on which the caller's scalar
    field accesses are not defined. *)
Definition loc_label {R} (df : frame R) (l : label) : result R :=
  match rows_at df l with
  | [] => Raise (KeyError "label not in index")
  | [p] => Ok (snd p)
  | _ => Raise (TypeError "label is not unique")
  end.

Section GroupBy.
Context {R : Type}.
(** The grouping column, by name and as a field of the records, and the
    counter column. *)
Variable key_name : string.
Variable key : R -> string.
Variable counter : R -> Z.

(** The group keys of [df.groupby(key)] ([sort=True], the default): the
    distinct values of the column, in ascending order. *)
Definition group_keys (df : frame R) : list string :=
  merge_sort String.le (remove_dups (map (fun p => key (snd p)) df)).

(** The rows of one group, in frame order. *)
Definition get_group (df : frame R) (k : string) : frame R :=
  filter (fun p => key (snd p) = k) df.

(** [df.groupby(key)[counter].idxmax()]: per group key, in key order, the
    label of the first row holding the group's maximum. *)
Definition groupby_idxmax (df : frame R) : result (list (string * label)) :=
  rmapM (fun k => let* l := idxmax (column counter (get_group df k)) in Ok (k, l))
        (group_keys df).

(** [df.loc[df.groupby(key)[counter].idxmax()]] *)
Definition reduce_frame (df : frame R) : result (frame R) :=
  let* idx := groupby_idxmax df in
  loc_labels df (map snd idx).

(** Lines 128-129 and 159-160: the reduction of a fetched batch.
    [pd.DataFrame([])] has no column, so that [groupby] raises [KeyError] on
    the name of the grouping column. *)
Definition reduce (data : list R) : result (frame R) :=
  match data with
  | [] => Raise (KeyError (String.append "'" (String.append key_name "'")))
  | _ :: _ => reduce_frame (DataFrame data)
  end.

(** Line 130: [results.loc[results[counter].idxmax()]] *)
Definition leading (results : frame R) : result R :=
  let* l := idxmax (column counter results) in
  loc_label results l.

(** [p] is a row of [df] with key [k] whose counter no row of that key
    exceeds. *)
Definition selected (df : frame R) (k : string) (p : label * R) : Prop :=
  p ∈ df /\ key (snd p) = k
  /\ forall q, q ∈ df -> key (snd q) = k -> counter (snd q) <= counter (snd p).

(** Lines 128-130 together: the leading record of a batch. *)
Definition leading_of_batch (data : list R) : result R :=
  let* results := reduce data in
  leading results.
End GroupBy.

(** Position in [data] of the first record with key [k]. *)
Fixpoint first_seen {R} (key : R -> string) (k : string) (data : list R) : nat :=
  match data with
  | [] => 0
  | r :: data' => if decide (key r = k) then 0 else S (first_seen key k data')
  end.

(** The tie rule in the specification's words: among the keys that tie on
    the leading counter, the leading key is the one that appears first in the
    batch. *)
Definition ties_go_to_first_seen {R} (key_name : string) (key : R -> string)
    (counter : R -> Z) (data : list R) : Prop :=
  forall r, leading_of_batch key_name key counter data = Ok r ->
    forall r', r' ∈ data -> counter r' = counter r ->
      (first_seen key (key r) data <= first_seen key (key r') data)%nat.

(** ** Records of the two topics *)

(** A message of [aggregated_votes_per_candidate]. *)
Record vote_row : Type := {
  candidate_id : string;
  candidate_name : string;
  party_affiliation : string;
  photo_url : string;
  total_votes : Z }.

(** A message of [aggregated_turnout_by_location]. *)
Record turnout_row : Type := {
  state : string;
  count : Z }.

(** ** Streamlit *)

(** An f-string: literal text and interpolated values. *)
Inductive piece : Type :=
  | Lit (s : string)
  | Int (z : Z)
  | Str (s : string).
Abbreviation fstring := (list piece) (only parsing).

Inductive chart : Type :=
  | bar_chart (x : list string) (height : list Z) (title : string)
  | donut_chart (labels : list string) (sizes : list Z) (title : string).

(** What the script puts on the page, in order.  [R] is the row type of the
    paginated table. *)
Inductive st_event (R : Type) : Type :=
  | st_error (msg : fstring)
  | st_warning (msg : fstring)
  | st_text (msg : fstring)
  | st_markdown (msg : fstring)
  | st_header (msg : fstring)
  | st_subheader (msg : fstring)
  | st_metric (name : string) (value : Z)
  | st_image (url : string) (width : Z)
  | st_pyplot (c : chart)
  | st_table (data : frame (string * string * string * Z))
  | st_radio (name : string) (options : list string)
  | st_selectbox (name : string) (options : list piece)
  | st_number_input (name : string) (min_value max_value step : Z)
  | st_dataframe (data : frame R)
  | st_session_state (name : string) (value : Z).
Arguments st_error {R} msg.
Arguments st_warning {R} msg.
Arguments st_text {R} msg.
Arguments st_markdown {R} msg.
Arguments st_header {R} msg.
Arguments st_subheader {R} msg.
Arguments st_metric {R} name value.
Arguments st_image {R} url width.
Arguments st_pyplot {R} c.
Arguments st_table {R} data.
Arguments st_radio {R} name options.
Arguments st_selectbox {R} name options.
Arguments st_number_input {R} name min_value max_value step.
Arguments st_dataframe {R} data.
Arguments st_session_state {R} name value.

(** A script fragment: the events it emitted, and its value or the exception
    that stopped it. *)
Definition ui (R A : Type) : Type := list (st_event R) * result A.

Definition ret {R A} (a : A) : ui R A := ([], Ok a).
Definition emit {R} (ev : st_event R) : ui R unit := ([ev], Ok tt).
Definition lift {R A} (m : result A) : ui R A := ([], m).

Definition bind {R A B} (m : ui R A) (f : A -> ui R B) : ui R B :=
  match m with
  | (evs, Ok a) => let '(evs', r) := f a in (evs ++ evs', r)
  | (evs, Raise e) => (evs, Raise e)
  end.

Notation "x <- m ;; k" := (bind m (fun x => k))
  (at level 100, m at next level, right associativity) : py_scope.
Notation "m ;; k" := (bind m (fun _ => k))
  (at level 100, right associativity) : py_scope.

(** [try: body except Exception as e: handler(e)] *)
Definition try_except {R A} (body : ui R A) (handler : exn -> ui R A) : ui R A :=
  match body with
  | (evs, Ok a) => (evs, Ok a)
  | (evs, Raise e) => let '(evs', r) := handler e in (evs ++ evs', r)
  end.

(** The widget values of one script run.  Streamlit bounds them: the page
    size is one of the options 10, 25, 50 and 100, and the page lies between
    the [min_value] 1 and the [max_value] [total_pages] of its input; the
    properties below take these bounds as hypotheses. *)
Record widgets : Type := {
  sort_data : string;        (* st.radio("Sort Data") *)
  sort_by : string;          (* st.selectbox("Sort By") *)
  direction : string;        (* st.radio("Direction") *)
  page_size : Z;             (* st.selectbox("Page Size") *)
  page : Z }.                (* st.number_input("Page") *)

(** ** The collaborators *)

(** One run of the psycopg2 calls of [fetch_voting_stats]: the outcome of
    each call, [fetchone] giving the row of the query just executed. *)
Record postgres : Type := {
  pg_connect : result unit;
  pg_cursor : result unit;
  pg_execute : string -> result unit;
  pg_fetchone : string -> result (option (list Z));
  pg_cursor_close : result unit;
  pg_close : result unit }.

(** A Kafka consumer: [poll] returns the decoded values per partition. *)
Record consumer (R : Type) : Type := {
  poll : result (list (list R)) }.
Arguments poll {R} c.

Record world : Type := {
  clock_text : string;                           (* time.strftime(...) *)
  clock : Z;                                     (* time.time() *)
  db : postgres;
  votes_topic : result (consumer vote_row);      (* KafkaConsumer(topic, ...) *)
  turnout_topic : result (consumer turnout_row);
  widget : widgets;
  matplotlib : chart -> result unit }.           (* plt.bar(...), ax.pie(...) *)

(** ** The script *)

(** Lines 12-23 *)
Definition create_kafka_consumer {R T} (topic : result (consumer T)) : ui R (option (consumer T)) :=
  try_except
    (c <- lift topic ;; ret (Some c))
    (fun e => emit (st_error [Lit "Error creating Kafka consumer: "; Str (exn_str e)]) ;; ret None).

(** [row[0]] on what [fetchone] returned. *)
Definition first_column (row : option (list Z)) : result Z :=
  match row with
  | None => Raise (TypeError "'NoneType' object is not subscriptable")
  | Some [] => Raise (IndexError "tuple index out of range")
  | Some (v :: _) => Ok v
  end.

(** The body of the [try] of [fetch_voting_stats], lines 29-41. *)
Definition query_voting_stats (pg : postgres) : result (Z * Z) :=
  let* _ := pg_connect pg in
  let* _ := pg_cursor pg in
  let* _ := pg_execute pg "SELECT count(*) FROM voters" in
  let* row := pg_fetchone pg "SELECT count(*) FROM voters" in
  let* voters_count := first_column row in
  let* _ := pg_execute pg "SELECT count(*) FROM candidates" in
  let* row := pg_fetchone pg "SELECT count(*) FROM candidates" in
  let* candidates_count := first_column row in
  let* _ := pg_cursor_close pg in
  let* _ := pg_close pg in
  Ok (voters_count, candidates_count).

(** Lines 27-44.  [st.cache_data] memoises the value returned; this is the
    call that runs the body. *)
Definition fetch_voting_stats {R} (pg : postgres) : ui R (Z * Z) :=
  try_except
    (lift (query_voting_stats pg))
    (fun e => emit (st_error [Lit "Error fetching voting stats: "; Str (exn_str e)]) ;; ret (0, 0)).

(** Lines 47-57 *)
Definition fetch_data_from_kafka {R T} (c : consumer T) : ui R (list T) :=
  try_except
    (messages <- lift (poll c) ;; ret (concat messages))
    (fun e => emit (st_error [Lit "Error fetching data from Kafka: "; Str (exn_str e)]) ;; ret []).

(** Lines 83-84 *)
Definition split_frame {R} (input_df : frame R) (rows : Z) : result (list (frame R)) :=
  let* starts := py_range 0 (Z.of_nat (length input_df)) rows in
  Ok (map (fun i => iloc input_df i (i + rows)) starts).

(** Line 106, for a page size other than 0 (at 0, which the page size
    selector does not offer, [//] raises [ZeroDivisionError]). *)
Definition total_pages {R} (table_data : frame R) (batch_size : Z) : Z :=
  Z.max 1 (Z.of_nat (length table_data) / batch_size).

(** The number of chunks [split_frame] makes of [n] rows: the length of
    [range(0, n, rows)]. *)
Definition chunk_count (n : nat) (rows : Z) : nat :=
  Z.to_nat (if 0 <? Z.of_nat n then (Z.of_nat n - 0 - 1) / rows + 1 else 0).

Section Paginate.
Context {R : Type}.
(** [table_data.columns] *)
Variable columns : list string.
(** [df.sort_values(by=..., ascending=..., ignore_index=True)] of pandas,
    with its default [kind='quicksort'].  The sorting algorithm is numpy's
    and is not part of the script: it is a parameter here, and the order it
    gives to rows with equal values is whatever that algorithm yields. *)
Variable sort_values : frame R -> string -> bool -> frame R.

(** Lines 95-100 *)
Definition sort_table (w : widgets) (table_data : frame R) : ui R (frame R) :=
  emit (st_radio "Sort Data" ["Yes"; "No"]) ;;
  if decide (sort_data w = "Yes") then
    emit (st_selectbox "Sort By" (map Str columns)) ;;
    emit (st_radio "Direction" ["⬆️"; "⬇️"]) ;;
    ret (sort_values table_data (sort_by w) (bool_decide (direction w = "⬆️")))
  else ret table_data.

(** The value of [table_data] after lines 95-100. *)
Definition sorted_table (w : widgets) (table_data : frame R) : frame R :=
  if decide (sort_data w = "Yes")
  then sort_values table_data (sort_by w) (bool_decide (direction w = "⬆️"))
  else table_data.

(** Lines 87-111 *)
Definition paginate_table (w : widgets) (table_data : frame R) : ui R unit :=
  if df_empty table_data then
    emit (st_warning [Lit "No data available."])
  else
    table_data <- sort_table w table_data ;;
    emit (st_selectbox "Page Size" [Int 10; Int 25; Int 50; Int 100]) ;;
    let batch_size := page_size w in
    let total_pages := total_pages table_data batch_size in
    emit (st_number_input "Page" 1 total_pages 1) ;;
    let current_page := page w in
    emit (st_markdown [Lit "Page **"; Int current_page; Lit "** of **"; Int total_pages; Lit "** "]) ;;
    pages <- lift (split_frame table_data batch_size) ;;
    shown <- lift (py_getitem pages (current_page - 1)) ;;
    emit (st_dataframe shown).
End Paginate.

(** Lines 60-68.  [plt.bar] may raise on the values it is given (a count
    too large for it, for one); [draw] is the outcome of that call, and
    [st.pyplot] is reached only when it returns. *)
Definition plot_colored_bar_chart {R} (draw : chart -> result unit)
    (results : frame (string * string * string * Z)) : ui R unit :=
  let data_type := map (fun p => snd (fst (fst (snd p)))) results in
  let c := bar_chart data_type (map (fun p => snd (snd p)) results)
                     "Vote Counts per Candidate" in
  lift (draw c) ;;
  emit (st_pyplot c).

(** Lines 71-79.  [ax.pie] may raise on the sizes it is given (a negative
    size, or sizes that are all zero); [draw] is the outcome of that call. *)
Definition plot_donut_chart {R} (draw : chart -> result unit)
    (data : frame (string * string * string * Z)) (title : string) : ui R unit :=
  let labels := map (fun p => snd (fst (fst (snd p)))) data in
  let sizes := map (fun p => snd (snd p)) data in
  let c := donut_chart labels sizes title in
  lift (draw c) ;;
  emit (st_pyplot c).

(** Line 144: the four columns kept for the statistics. *)
Definition statistics_columns (r : vote_row) : string * string * string * Z :=
  (candidate_id r, candidate_name r, party_affiliation r, total_votes r).

Section Dashboard.
Variable sort_values : frame turnout_row -> string -> bool -> frame turnout_row.

(** Lines 128-153 *)
Definition show_candidates (draw : chart -> result unit) (data : list vote_row)
  : ui turnout_row unit :=
  results <- lift (reduce "candidate_id" candidate_id total_votes data) ;;
  leading_candidate <- lift (leading total_votes results) ;;
  emit (st_markdown [Lit "---"]) ;;
  emit (st_header [Lit "Leading Candidate"]) ;;
  emit (st_image (photo_url leading_candidate) 200) ;;
  emit (st_header [Str (candidate_name leading_candidate)]) ;;
  emit (st_subheader [Str (party_affiliation leading_candidate)]) ;;
  emit (st_subheader [Lit "Total Votes: "; Int (total_votes leading_candidate)]) ;;
  emit (st_markdown [Lit "---"]) ;;
  emit (st_header [Lit "Statistics"]) ;;
  let results := reset_index (map (fun p => (fst p, statistics_columns (snd p))) results) in
  plot_colored_bar_chart draw results ;;
  plot_donut_chart draw results "Vote Distribution" ;;
  emit (st_table results).

(** Lines 159-163 *)
Definition show_turnout (w : widgets) (location_data : list turnout_row) : ui turnout_row unit :=
  location_result <- lift (reduce "state" state count location_data) ;;
  let location_result := reset_index location_result in
  emit (st_header [Lit "Location of Voters"]) ;;
  paginate_table ["state"; "count"] sort_values w location_result.

(** Lines 114-165 *)
Definition update_data (w : world) : ui turnout_row unit :=
  emit (st_text [Lit "Last refreshed at: "; Str (clock_text w)]) ;;
  stats <- fetch_voting_stats (db w) ;;
  let '(voters_count, candidates_count) := stats in
  emit (st_markdown [Lit "---"]) ;;
  emit (st_metric "Total Voters" voters_count) ;;
  emit (st_metric "Total Candidates" candidates_count) ;;
  consumer <- create_kafka_consumer (votes_topic w) ;;
  match consumer with
  | Some c =>
      data <- fetch_data_from_kafka c ;;
      match data with
      | [] => ret tt
      | _ => show_candidates (matplotlib w) data
      end
  | None => ret tt
  end ;;
  location_consumer <- create_kafka_consumer (turnout_topic w) ;;
  match location_consumer with
  | Some c =>
      location_data <- fetch_data_from_kafka c ;;
      match location_data with
      | [] => ret tt
      | _ => show_turnout (widget w) location_data
      end
  | None => ret tt
  end ;;
  emit (st_session_state "last_update" (clock w)).
End Dashboard.

(** One behaviour [sort_values] may have on the turnout table: a stable
    sort, which leaves rows with equal values in their order.  Concrete runs
    of the dashboard use it. *)
Definition row_le (by_ : string) (a b : label * turnout_row) : Prop :=
  if decide (by_ = "state") then String.le (state (snd a)) (state (snd b))
  else count (snd a) <= count (snd b).

#[local] Instance row_le_dec by_ a b : Decision (row_le by_ a b).
Proof. unfold row_le. destruct (decide (by_ = "state")); apply _. Defined.

(** Insert a row before the first row that is not smaller. *)
Fixpoint insert_row (by_ : string) (x : label * turnout_row)
    (l : frame turnout_row) : frame turnout_row :=
  match l with
  | [] => [x]
  | y :: l' => if decide (row_le by_ x y) then x :: l else y :: insert_row by_ x l'
  end.

Definition stable_sort (by_ : string) (df : frame turnout_row) : frame turnout_row :=
  foldr (insert_row by_) [] df.

(** Descending: pandas sorts the reversed column and reverses the result. *)
Definition sort_values_stable (df : frame turnout_row) (by_ : string) (ascending : bool)
  : frame turnout_row :=
  let sorted :=
    if ascending then stable_sort by_ df
    else reverse (stable_sort by_ (reverse df)) in
  reset_index sorted.

(** ** Sample data *)

Definition turnout_columns : list string := ["state"; "count"].

(** A turnout table of 23 rows, states "A" to "W". *)
Definition table23 : frame turnout_row :=
  DataFrame (map (fun i => {| state := String (Ascii.ascii_of_nat (65 + i)) EmptyString;
                              count := Z.of_nat i |})
                 (seq 0 23)).

(** Page [p] of pages of 10, unsorted. *)
Definition pages_of_10 (p : Z) : widgets := {|
  sort_data := "No"; sort_by := "state"; direction := "⬆️";
  page_size := 10; page := p |}.

Definition vote (id : string) (votes : Z) : vote_row := {|
  candidate_id := id;
  candidate_name := id;
  party_affiliation := "";
  photo_url := "";
  total_votes := votes |}.

(** A database whose server refuses the connection. *)
Definition db_down : postgres := {|
  pg_connect := Raise (OtherError "connection refused");
  pg_cursor := Ok tt;
  pg_execute := fun _ => Ok tt;
  pg_fetchone := fun _ => Ok None;
  pg_cursor_close := Ok tt;
  pg_close := Ok tt |}.

(** A pass with the database down and both topics silent. *)
Definition world_db_down : world := {|
  clock_text := "2024-01-01 00:00:00";
  clock := 1704067200;
  db := db_down;
  votes_topic := Ok {| poll := Ok [] |};
  turnout_topic := Ok {| poll := Ok [] |};
  widget := pages_of_10 1;
  matplotlib := fun _ => Ok tt |}.

(** A database that answers 0 to both counts. *)
Definition db_zero : postgres := {|
  pg_connect := Ok tt;
  pg_cursor := Ok tt;
  pg_execute := fun _ => Ok tt;
  pg_fetchone := fun _ => Ok (Some [0]);
  pg_cursor_close := Ok tt;
  pg_close := Ok tt |}.

(** The world [w] with another database behind it. *)
Definition with_db (w : world) (pg : postgres) : world := {|
  clock_text := clock_text w;
  clock := clock w;
  db := pg;
  votes_topic := votes_topic w;
  turnout_topic := turnout_topic w;
  widget := widget w;
  matplotlib := matplotlib w |}.

(** ** Observations on the event log *)

(** The frames shown by [st.dataframe]. *)
Definition displayed {R} (evs : list (st_event R)) : list (frame R) :=
  omap (fun ev => match ev with st_dataframe d => Some d | _ => None end) evs.

(** The page counts offered by the "Page" input (its [max_value]). *)
Definition reported_total_pages {R} (evs : list (st_event R)) : list Z :=
  omap (fun ev => match ev with st_number_input _ _ m _ => Some m | _ => None end) evs.

(** The page count as the specification words it, on natural numbers. *)
Definition spec_total_pages (row_count page_size : nat) : nat :=
  Nat.max 1 (row_count / page_size).

(** ** More of the reduction *)

(** [p] is the first row of [df] with key [k] that holds the maximum counter
    of that key: rows of the key with a smaller label have a smaller
    counter, no row of the key has a larger one. *)
Definition selected_first {R} (key : R -> string) (counter : R -> Z)
    (df : list (nat * R)) (k : string) (p : nat * R) : Prop :=
  p ∈ df /\ key (snd p) = k
  /\ (forall q, q ∈ df -> key (snd q) = k -> counter (snd q) <= counter (snd p))
  /\ (forall q, q ∈ df -> key (snd q) = k -> (fst q < fst p)%nat ->
        counter (snd q) < counter (snd p)).

(** The standings a reduced table shows: key and counter of each row. *)
Definition standings {R} (key : R -> string) (counter : R -> Z)
    (T : list (nat * R)) : list (string * Z) :=
  map (fun p => (key (snd p), counter (snd p))) T.

(** ** More sample data *)

(** A database that answers 7 voters and 3 candidates, and whose cursor
    cannot be closed. *)
Definition db_close_fails : postgres := {|
  pg_connect := Ok tt;
  pg_cursor := Ok tt;
  pg_execute := fun _ => Ok tt;
  pg_fetchone := fun q => if decide (q = "SELECT count(*) FROM voters")
                          then Ok (Some [7]) else Ok (Some [3]);
  pg_cursor_close := Raise (OtherError "cursor already closed");
  pg_close := Ok tt |}.

(** A pass with the brokers unreachable. *)
Definition world_kafka_down : world := {|
  clock_text := "2024-01-01 00:00:00";
  clock := 1704067200;
  db := db_zero;
  votes_topic := Raise (OtherError "NoBrokersAvailable");
  turnout_topic := Raise (OtherError "NoBrokersAvailable");
  widget := pages_of_10 1;
  matplotlib := fun _ => Ok tt |}.

(** A pass whose polls return no message. *)
Definition world_silent : world := {|
  clock_text := "2024-01-01 00:00:00";
  clock := 1704067200;
  db := db_zero;
  votes_topic := Ok {| poll := Ok [[]; []] |};
  turnout_topic := Ok {| poll := Ok [] |};
  widget := pages_of_10 1;
  matplotlib := fun _ => Ok tt |}.


(** * Properties *)

(** ** Slices and ranges *)

Lemma slice_bound_nonneg (len : nat) (i : Z) :
  0 <= i -> slice_bound len i = Nat.min (Z.to_nat i) len.
Proof.
  intros Hi. unfold slice_bound.
  destruct (Z.ltb_spec i 0); lia.
Qed.

(** A chunk of [rows] rows starting at the [i]-th multiple of [rows]. *)
Lemma iloc_chunk {R} (df : frame R) (rows : Z) (i : nat) :
  0 < rows ->
  iloc df (0 + Z.of_nat i * rows) (0 + Z.of_nat i * rows + rows)
  = take (Z.to_nat rows) (drop (i * Z.to_nat rows) df).
Proof.
  intros Hrows. unfold iloc, py_slice.
  rewrite !slice_bound_nonneg by nia.
  set (r := Z.to_nat rows).
  replace (Z.to_nat (0 + Z.of_nat i * rows)) with (i * r)%nat by nia.
  replace (Z.to_nat (0 + Z.of_nat i * rows + rows)) with (i * r + r)%nat by nia.
  destruct (decide (length df <= i * r)%nat) as [Hge|Hlt].
  - rewrite !Nat.min_r by lia.
    rewrite (drop_ge df (i * r)) by lia.
    rewrite drop_all. by rewrite !take_nil.
  - rewrite (Nat.min_l (i * r) (length df)) by lia.
    apply list_eq. intros j.
    rewrite !lookup_take, !lookup_drop.
    repeat case_decide; try done; try lia.
    symmetry. apply lookup_ge_None. lia.
Qed.

Lemma concat_chunks {A} (l : list A) (r cnt : nat) :
  concat (map (fun i => take r (drop (i * r) l)) (seq 0 cnt)) = take (cnt * r) l.
Proof.
  induction cnt as [|c IH]; [done|].
  rewrite seq_S, map_app, concat_app, IH. simpl.
  rewrite app_nil_r, take_take_drop. f_equal. lia.
Qed.

Lemma split_frame_chunks {R} (df : frame R) (rows : Z) :
  0 < rows ->
  split_frame df rows
  = Ok (map (fun i => take (Z.to_nat rows) (drop (i * Z.to_nat rows) df))
            (seq 0 (chunk_count (length df) rows))).
Proof.
  intros Hrows. unfold split_frame, py_range.
  destruct (Z.eqb_spec rows 0); [lia|].
  destruct (Z.ltb_spec 0 rows); [|lia].
  simpl. f_equal. rewrite map_map. apply map_ext. intros i.
  by apply iloc_chunk.
Qed.

Lemma chunk_count_covers (n : nat) (rows : Z) :
  0 < rows -> (n <= chunk_count n rows * Z.to_nat rows)%nat.
Proof.
  intros Hrows. unfold chunk_count.
  destruct (Z.ltb_spec 0 (Z.of_nat n)); [|lia].
  pose proof (Z.mul_succ_div_gt (Z.of_nat n - 0 - 1) rows Hrows).
  pose proof (Z.div_pos (Z.of_nat n - 0 - 1) rows). nia.
Qed.

Lemma total_pages_le_chunk_count {R} (df : frame R) (rows : Z) :
  0 < rows -> df <> [] ->
  1 <= total_pages df rows <= Z.of_nat (chunk_count (length df) rows).
Proof.
  intros Hrows Hdf. unfold total_pages, chunk_count.
  assert (0 < length df)%nat by (destruct df; simpl; [done|lia]).
  destruct (Z.ltb_spec 0 (Z.of_nat (length df))); [|lia].
  set (n := Z.of_nat (length df)) in *.
  assert (0 <= (n - 0 - 1) / rows) by (apply Z.div_pos; lia).
  assert (n / rows <= (n - 0 - 1) / rows + 1).
  { replace ((n - 0 - 1) / rows + 1) with ((n - 1 + 1 * rows) / rows)
      by (rewrite Z.div_add by lia; f_equal; f_equal; lia).
    apply Z.div_le_mono; lia. }
  lia.
Qed.

Lemma py_getitem_lookup {A} (l : list A) (i : Z) (a : A) :
  0 <= i -> l !! Z.to_nat i = Some a -> py_getitem l i = Ok a.
Proof.
  intros Hi Hl. unfold py_getitem.
  destruct (Z.ltb_spec i 0); [lia|].
  destruct (Z.ltb_spec i 0); [lia|]. by rewrite Hl.
Qed.

Lemma spec_total_pages_refines {R} (df : frame R) (batch_size : Z) :
  0 < batch_size ->
  total_pages df batch_size
  = Z.of_nat (spec_total_pages (length df) (Z.to_nat batch_size)).
Proof.
  intros Hb. unfold total_pages, spec_total_pages.
  rewrite Nat2Z.inj_max, Nat2Z.inj_div, Z2Nat.id by lia. done.
Qed.

(** ** The paginator *)

Lemma displayed_app {R} (evs1 evs2 : list (st_event R)) :
  displayed (evs1 ++ evs2) = displayed evs1 ++ displayed evs2.
Proof. apply omap_app. Qed.

Lemma reported_total_pages_app {R} (evs1 evs2 : list (st_event R)) :
  reported_total_pages (evs1 ++ evs2)
  = reported_total_pages evs1 ++ reported_total_pages evs2.
Proof. apply omap_app. Qed.

Section PaginateFacts.
Context {R : Type}.
Variable columns : list string.
Variable sort_values : frame R -> string -> bool -> frame R.
(** What pandas promises of [sort_values] whatever the sorting algorithm:
    the rows are rearranged, none added or lost. *)
Hypothesis sort_values_perm :
  forall df by_ asc, map snd (sort_values df by_ asc) ≡ₚ map snd df.

Lemma sort_table_value w df :
  snd (sort_table columns sort_values w df) = Ok (sorted_table sort_values w df).
Proof. unfold sort_table, sorted_table. by destruct (decide _). Qed.

Lemma sort_table_events w df :
  displayed (fst (sort_table columns sort_values w df)) = []
  /\ reported_total_pages (fst (sort_table columns sort_values w df)) = [].
Proof. unfold sort_table. by destruct (decide _). Qed.

Lemma sorted_table_length w df : length (sorted_table sort_values w df) = length df.
Proof.
  unfold sorted_table. destruct (decide _); [|done].
  rewrite <- (length_map snd), sort_values_perm. apply length_map.
Qed.

Lemma sorted_table_nonempty w df : df <> [] -> sorted_table sort_values w df <> [].
Proof.
  intros Hdf Hs. apply (f_equal length) in Hs.
  rewrite sorted_table_length in Hs. by destruct df.
Qed.

(** A run of the paginator on a table with rows, with a positive page size
    and a page number the "Page" input accepts. *)
Lemma paginate_table_run w df :
  df <> [] -> 0 < page_size w ->
  1 <= page w <= total_pages (sorted_table sort_values w df) (page_size w) ->
  let t := sorted_table sort_values w df in
  let r := Z.to_nat (page_size w) in
  paginate_table columns sort_values w df
  = (fst (sort_table columns sort_values w df)
     ++ [st_selectbox "Page Size" [Int 10; Int 25; Int 50; Int 100];
         st_number_input "Page" 1 (total_pages t (page_size w)) 1;
         st_markdown [Lit "Page **"; Int (page w); Lit "** of **";
                      Int (total_pages t (page_size w)); Lit "** "];
         st_dataframe (take r (drop (Z.to_nat (page w - 1) * r) t))],
     Ok tt).
Proof.
  intros Hdf Hps Hpage t r.
  pose proof (total_pages_le_chunk_count t (page_size w) Hps
                (sorted_table_nonempty w df Hdf)) as Hcnt.
  unfold paginate_table. destruct df as [|p df]; [done|]. simpl df_empty. cbv iota.
  pose proof (sort_table_value w (p :: df)) as Hv.
  destruct (sort_table columns sort_values w (p :: df)) as [evs v].
  simpl in Hv. subst v. fold t. simpl.
  rewrite (split_frame_chunks t (page_size w) Hps). simpl.
  erewrite py_getitem_lookup; [simpl | lia | ].
  - reflexivity.
  - rewrite list_lookup_fmap, lookup_seq_lt by (fold t in Hpage; lia). done.
Qed.

Lemma paginate_table_reports w df :
  df <> [] -> 0 < page_size w ->
  reported_total_pages (fst (paginate_table columns sort_values w df))
  = [total_pages (sorted_table sort_values w df) (page_size w)].
Proof.
  intros Hdf Hps.
  unfold paginate_table. destruct df as [|p df]; [done|]. simpl df_empty. cbv iota.
  pose proof (sort_table_value w (p :: df)) as Hv.
  pose proof (sort_table_events w (p :: df)) as [_ He].
  destruct (sort_table columns sort_values w (p :: df)) as [evs v].
  simpl in Hv, He. subst v. simpl.
  rewrite (split_frame_chunks _ (page_size w) Hps). simpl.
  destruct (py_getitem _ _); simpl;
    rewrite reported_total_pages_app, He; done.
Qed.

(** C5: whenever the paginator offers a page count (it does so exactly once,
    for every table that has rows), the count it reports for a table of
    [row_count] rows and a positive page size is [max(1, row_count //
    page_size)]; the code's integer computation agrees with the formula
    read on natural numbers. *)
Theorem reported_total_pages_formula w df :
  0 < page_size w ->
  reported_total_pages (fst (paginate_table columns sort_values w df))
  = if df_empty df then []
    else [Z.of_nat (spec_total_pages (length df) (Z.to_nat (page_size w)))].
Proof.
  intros Hps. destruct df as [|p df]; [done|]. simpl df_empty. cbv iota.
  rewrite paginate_table_reports by done.
  rewrite spec_total_pages_refines by done.
  by rewrite sorted_table_length.
Qed.

(** C10: on a table with rows, with a page size among 10, 25, 50 and 100 and
    a page number between 1 and [max(1, row_count // page_size)], the page
    count does not exceed the number of chunks of the split, the lookup
    [pages[current_page - 1]] finds a chunk, and the paginator shows that
    chunk and ends without an exception. *)
Theorem selected_page_in_bounds w df :
  df <> [] ->
  page_size w ∈ [10; 25; 50; 100] ->
  1 <= page w <= Z.max 1 (Z.of_nat (length df) / page_size w) ->
  exists pages shown,
    split_frame (sorted_table sort_values w df) (page_size w) = Ok pages
    /\ Z.max 1 (Z.of_nat (length df) / page_size w) <= Z.of_nat (length pages)
    /\ pages !! Z.to_nat (page w - 1) = Some shown
    /\ py_getitem pages (page w - 1) = Ok shown
    /\ snd (paginate_table columns sort_values w df) = Ok tt
    /\ displayed (fst (paginate_table columns sort_values w df)) = [shown].
Proof.
  intros Hdf Hps Hpage.
  assert (0 < page_size w) as Hpos.
  { repeat (apply elem_of_cons in Hps as [->|Hps]; [lia|]).
    by apply elem_of_nil in Hps. }
  set (t := sorted_table sort_values w df).
  assert (total_pages t (page_size w) = Z.max 1 (Z.of_nat (length df) / page_size w)) as Htp.
  { unfold total_pages, t. by rewrite sorted_table_length. }
  pose proof (total_pages_le_chunk_count t (page_size w) Hpos
                (sorted_table_nonempty w df Hdf)) as Hcnt.
  rewrite Htp in Hcnt.
  set (r := Z.to_nat (page_size w)).
  assert (map (fun i => take r (drop (i * r) t)) (seq 0 (chunk_count (length t) (page_size w)))
            !! Z.to_nat (page w - 1)
          = Some (take r (drop (Z.to_nat (page w - 1) * r) t))) as Hlook.
  { rewrite list_lookup_fmap, lookup_seq_lt by lia. done. }
  eexists _, _. split; [by apply split_frame_chunks|].
  split; [rewrite length_map, length_seq; lia|].
  split; [exact Hlook|].
  split; [apply py_getitem_lookup; [lia|exact Hlook]|].
  rewrite paginate_table_run; [|done|done|fold t; by rewrite Htp]. simpl.
  split; [done|].
  rewrite displayed_app.
  destruct (sort_table_events w df) as [-> _]. done.
Qed.

(** C6, as the code has it: with 23 rows and page size 10 the paginator
    reports 2 pages, page 1 and page 2 hold 10 rows each, and the split makes
    a third chunk of the 3 rows left. *)
Theorem pages_of_23_rows_by_10 w df :
  length df = 23%nat ->
  page_size w = 10 ->
  page w = 1 \/ page w = 2 ->
  reported_total_pages (fst (paginate_table columns sort_values w df)) = [2]
  /\ (exists shown,
        displayed (fst (paginate_table columns sort_values w df)) = [shown]
        /\ length shown = 10%nat)
  /\ (exists p1 p2 p3,
        split_frame (sorted_table sort_values w df) (page_size w) = Ok [p1; p2; p3]
        /\ length p1 = 10%nat /\ length p2 = 10%nat /\ length p3 = 3%nat).
Proof.
  intros Hlen Hps Hpage.
  assert (df <> []) as Hdf by (intros ->; done).
  assert (length (sorted_table sort_values w df) = 23%nat) as Hlen'
    by (by rewrite sorted_table_length).
  assert (total_pages (sorted_table sort_values w df) (page_size w) = 2) as Htp
    by (unfold total_pages; rewrite Hlen', Hps; done).
  split; [rewrite paginate_table_reports by (done || lia); by rewrite Htp|].
  split.
  - rewrite paginate_table_run by (done || lia). simpl.
    eexists. split.
    + rewrite displayed_app.
      destruct (sort_table_events w df) as [-> _]. done.
    + rewrite length_take, length_drop, Hlen', Hps.
      destruct Hpage as [-> | ->]; done.
  - rewrite split_frame_chunks by lia. rewrite Hlen', Hps.
    eexists _, _, _. split; [reflexivity|].
    rewrite !length_take, !length_drop, Hlen'. done.
Qed.
End PaginateFacts.

(** C9: on an empty table the paginator shows the "No data available."
    warning and returns; no sort control, page-size or page input, page
    caption or table is produced. *)
Theorem paginate_table_empty {R} columns sort_values (w : widgets) :
  @df_empty R [] = true
  /\ @paginate_table R columns sort_values w []
     = ([st_warning [Lit "No data available."]], Ok tt).
Proof. done. Qed.

(** C7: for every table and every positive page size the split succeeds and
    its chunks, concatenated in page order, are the table itself: rows, order
    and labels. *)
Theorem split_frame_concat {R} (df : frame R) (rows : Z) :
  0 < rows ->
  exists pages, split_frame df rows = Ok pages /\ concat pages = df.
Proof.
  intros Hrows. eexists. split; [by apply split_frame_chunks|].
  rewrite concat_chunks. apply take_ge.
  by apply chunk_count_covers.
Qed.

(** ** Frames and labels *)

Lemma with_index_labels {R} (i : label) (data : list R) :
  map fst (with_index i data) = seq i (length data).
Proof. revert i. induction data as [|r data IH]; intros i; simpl; [done|]. by rewrite IH. Qed.

Lemma with_index_rows {R} (i : label) (data : list R) :
  map snd (with_index i data) = data.
Proof. revert i. induction data as [|r data IH]; intros i; simpl; [done|]. by rewrite IH. Qed.

Lemma with_index_app {R} (i : label) (d1 d2 : list R) :
  with_index i (d1 ++ d2) = with_index i d1 ++ with_index (i + length d1)%nat d2.
Proof.
  revert i. induction d1 as [|r d1 IH]; intros i; simpl.
  - by rewrite Nat.add_0_r.
  - rewrite IH. do 3 f_equal. lia.
Qed.

Lemma DataFrame_labels_NoDup {R} (data : list R) : NoDup (map fst (DataFrame data)).
Proof. unfold DataFrame. rewrite with_index_labels. apply NoDup_seq. Qed.

Lemma DataFrame_elem {R} (data : list R) p : p ∈ DataFrame data -> snd p ∈ data.
Proof.
  intros Hp. rewrite <- (with_index_rows 0%nat data).
  by apply list_elem_of_fmap_2.
Qed.

Lemma DataFrame_elem_inv {R} (data : list R) r :
  r ∈ data -> exists p, p ∈ DataFrame data /\ snd p = r.
Proof.
  intros Hr. rewrite <- (with_index_rows 0%nat data) in Hr.
  apply list_elem_of_fmap in Hr as (p & -> & Hp). eauto.
Qed.

Lemma unique_label {R} (df : frame R) p q :
  NoDup (map fst df) -> p ∈ df -> q ∈ df -> fst p = fst q -> p = q.
Proof.
  induction df as [|a df IH]; simpl; intros Hnd Hp Hq Hpq.
  { by apply elem_of_nil in Hp. }
  apply NoDup_cons in Hnd as [Ha Hnd].
  apply elem_of_cons in Hp as [->|Hp]; apply elem_of_cons in Hq as [->|Hq]; auto.
  - exfalso. apply Ha. rewrite Hpq. by apply list_elem_of_fmap_2.
  - exfalso. apply Ha. rewrite <- Hpq. by apply list_elem_of_fmap_2.
Qed.

Lemma filter_none {A} (P : A -> Prop) `{forall x, Decision (P x)} (l : list A) :
  (forall x, x ∈ l -> ~ P x) -> filter P l = [].
Proof.
  induction l as [|a l IH]; intros Hl; [done|].
  rewrite filter_cons_False by (apply Hl; left).
  apply IH. intros x Hx. apply Hl. by right.
Qed.

Lemma rows_at_unique {R} (df : frame R) p :
  NoDup (map fst df) -> p ∈ df -> rows_at df (fst p) = [p].
Proof.
  unfold rows_at. induction df as [|a df IH]; intros Hnd Hp; simpl in Hnd.
  { by apply elem_of_nil in Hp. }
  apply NoDup_cons in Hnd as [Ha Hnd].
  apply elem_of_cons in Hp as [->|Hp].
  - rewrite filter_cons_True by done. f_equal.
    apply filter_none. intros q Hq Hfst. apply Ha.
    rewrite <- Hfst. by apply list_elem_of_fmap_2.
  - rewrite filter_cons_False; [by apply IH|].
    intros Hfst. apply Ha. rewrite Hfst. by apply list_elem_of_fmap_2.
Qed.

Lemma rows_at_absent {R} (df : frame R) (l : label) :
  l ∉ map fst df -> rows_at df l = [].
Proof.
  intros Hl. apply filter_none. intros q Hq Hfst. apply Hl.
  rewrite <- Hfst. by apply list_elem_of_fmap_2.
Qed.

(** ** [idxmax] *)

Lemma fold_pick_ge (s : list (label * Z)) (x : label * Z) :
  snd x <= snd (fold_left pick s x).
Proof.
  revert x. induction s as [|y s IH]; intros x; simpl; [lia|].
  etrans; [|apply IH]. unfold pick. destruct (Z.ltb_spec (snd x) (snd y)); lia.
Qed.

(** The fold behind [idxmax] stops on the first occurrence of the maximum:
    what precedes it is strictly smaller, what follows is not larger. *)
Lemma fold_pick_spec (s : list (label * Z)) (x : label * Z) :
  exists s1 s2,
    x :: s = s1 ++ fold_left pick s x :: s2
    /\ Forall (fun y => snd y < snd (fold_left pick s x)) s1
    /\ Forall (fun y => snd y <= snd (fold_left pick s x)) s2.
Proof.
  revert x. induction s as [|y s IH]; intros x.
  { exists [], []. by repeat split. }
  simpl fold_left. pose proof (fold_pick_ge s (pick x y)) as Hge.
  destruct (IH (pick x y)) as (s1 & s2 & Heq & H1 & H2).
  set (b := fold_left pick s (pick x y)) in *.
  clearbody b. unfold pick in Heq, Hge. destruct (Z.ltb_spec (snd x) (snd y)) as [Hlt|Hle].
  - exists (x :: s1), s2. rewrite Heq.
    split; [done|]. split; [|done]. apply Forall_cons. split; [simpl; lia|done].
  - destruct s1 as [|z s1]; simpl in Heq; injection Heq as Hx Hs.
    + subst. exists [], (y :: s2). simpl.
      split; [done|]. split; [done|]. apply Forall_cons. split; [simpl; lia|done].
    + subst. exists (z :: y :: s1), s2. simpl.
      split; [done|]. split; [|done].
      apply Forall_cons in H1 as [Hz H1].
      apply Forall_cons. split; [done|]. apply Forall_cons. split; [simpl in *; lia|done].
Qed.

Lemma fold_pick_dominated (s : list (label * Z)) (b : label * Z) :
  Forall (fun y => snd y <= snd b) s -> fold_left pick s b = b.
Proof.
  induction 1 as [|y s Hy Hs IH]; simpl; [done|].
  unfold pick at 2. destruct (Z.ltb_spec (snd b) (snd y)); [lia|done].
Qed.

Lemma fold_pick_max (s : list (label * Z)) (x : label * Z) :
  fold_left pick s x ∈ x :: s
  /\ Forall (fun y => snd y <= snd (fold_left pick s x)) (x :: s).
Proof.
  destruct (fold_pick_spec s x) as (s1 & s2 & Heq & H1 & H2).
  split.
  - rewrite Heq. apply elem_of_app. right. left.
  - rewrite Heq. apply Forall_app. split.
    + eapply Forall_impl; [exact H1|]. simpl. lia.
    + constructor; [lia|done].
Qed.

(** Appending values that do not exceed the maximum leaves [idxmax] as it is. *)
Lemma idxmax_app_dominated (s s' : list (label * Z)) (l : label) :
  idxmax s = Ok l ->
  (forall y, y ∈ s' -> exists z, z ∈ s /\ snd y <= snd z) ->
  idxmax (s ++ s') = Ok l.
Proof.
  destruct s as [|x s]; [done|]. simpl. intros Hl Hs'.
  rewrite fold_left_app. rewrite fold_pick_dominated; [done|].
  apply Forall_forall. intros y Hy.
  destruct (Hs' y Hy) as (z & Hz & Hyz).
  destruct (fold_pick_max s x) as [_ Hmax].
  rewrite Forall_forall in Hmax. specialize (Hmax z Hz). lia.
Qed.

(** ** The result monad over lists *)

Lemma rmapM_ext {A B} (f g : A -> result B) (l : list A) :
  (forall a, a ∈ l -> f a = g a) -> rmapM f l = rmapM g l.
Proof.
  induction l as [|a l IH]; intros Hfg; simpl; [done|].
  rewrite Hfg by left. rewrite IH; [done|].
  intros b Hb. apply Hfg. by right.
Qed.

Lemma loc_labels_nil {R} (df : frame R) : loc_labels df [] = Ok [].
Proof. done. Qed.

Lemma loc_labels_cons {R} (df : frame R) l ls p T :
  rows_at df l = [p] ->
  loc_labels df ls = Ok T ->
  loc_labels df (l :: ls) = Ok (p :: T).
Proof.
  unfold loc_labels. simpl. intros -> HT. simpl.
  destruct (rmapM _ ls) as [parts|e]; simpl in *; [|done].
  by simplify_eq.
Qed.

(** ** The reduction *)

Section ReduceFacts.
Context {R : Type}.
Variable key_name : string.
Variable key : R -> string.
Variable counter : R -> Z.

(** On a batch with records the reduction is the one of its frame. *)
Lemma reduce_nonempty (data : list R) :
  data <> [] ->
  reduce key_name key counter data = reduce_frame key counter (DataFrame data).
Proof. by destruct data. Qed.

Lemma group_keys_elem (df : frame R) (k : string) :
  k ∈ group_keys key df <-> exists p, p ∈ df /\ key (snd p) = k.
Proof.
  unfold group_keys.
  rewrite merge_sort_Permutation, elem_of_remove_dups, list_elem_of_fmap.
  split; intros (p & Hp1 & Hp2); exists p; by split.
Qed.

Lemma group_keys_NoDup (df : frame R) : NoDup (group_keys key df).
Proof.
  unfold group_keys. rewrite merge_sort_Permutation. apply NoDup_remove_dups.
Qed.

Lemma group_keys_sorted (df : frame R) : StronglySorted String.le (group_keys key df).
Proof. unfold group_keys. apply StronglySorted_merge_sort; apply _. Qed.

(** The keys of a frame depend on the set of key values only. *)
Lemma group_keys_same_keys (df df' : frame R) :
  (forall k, (exists p, p ∈ df /\ key (snd p) = k) <-> (exists p, p ∈ df' /\ key (snd p) = k)) ->
  group_keys key df = group_keys key df'.
Proof.
  intros Hk. apply (StronglySorted_unique String.le); try apply group_keys_sorted.
  apply NoDup_Permutation; try apply group_keys_NoDup.
  intros k. by rewrite !group_keys_elem.
Qed.

Lemma idxmax_group (df : frame R) (k : string) :
  (exists p, p ∈ df /\ key (snd p) = k) ->
  exists p, idxmax (column counter (get_group key df k)) = Ok (fst p)
            /\ selected key counter df k p.
Proof.
  intros (p0 & Hp0 & Hk0).
  assert (p0 ∈ get_group key df k) as Hg by (by apply list_elem_of_filter).
  unfold column.
  destruct (get_group key df k) as [|x g] eqn:Hgrp; [by apply elem_of_nil in Hg|].
  simpl.
  set (f := fun p : label * R => (fst p, counter (snd p))).
  destruct (fold_pick_max (map f g) (f x)) as [Hin Hmax].
  change (f x :: map f g) with (map f (x :: g)) in Hin, Hmax.
  apply list_elem_of_fmap in Hin as (p & Hp & Hpg).
  exists p. split; [change (x.1, counter x.2) with (f x); by rewrite Hp|].
  rewrite <- Hgrp in Hpg. apply list_elem_of_filter in Hpg as [Hkp Hpdf].
  split; [done|]. split; [done|].
  intros q Hq Hkq.
  assert (q ∈ x :: g) as Hqg by (rewrite <- Hgrp; by apply list_elem_of_filter).
  rewrite Forall_forall in Hmax.
  specialize (Hmax (f q) (list_elem_of_fmap_2 f _ _ Hqg)).
  rewrite Hp in Hmax. exact Hmax.
Qed.

Lemma reduce_keys (df : frame R) (ks : list string) :
  NoDup (map fst df) ->
  (forall k, k ∈ ks -> exists p, p ∈ df /\ key (snd p) = k) ->
  exists idx T,
    rmapM (fun k => let* l := idxmax (column counter (get_group key df k)) in Ok (k, l)) ks
    = Ok idx
    /\ map snd idx = map fst T
    /\ loc_labels df (map snd idx) = Ok T
    /\ Forall2 (selected key counter df) ks T.
Proof.
  intros Hnd. induction ks as [|k ks IH]; intros Hks.
  { exists [], []. by repeat split. }
  destruct IH as (idx & T & Hidx & Hlab & HT & Hsel).
  { intros k' Hk'. apply Hks. by right. }
  destruct (idxmax_group df k) as (p & Hp & Hselp); [apply Hks; left|].
  exists ((k, fst p) :: idx), (p :: T). simpl. rewrite Hp, Hidx. simpl.
  split; [done|]. split; [by rewrite Hlab|]. split; [|by constructor].
  apply loc_labels_cons; [|done].
  apply rows_at_unique; [done|]. by destruct Hselp.
Qed.

(** The reduction succeeds, and pairs every group key, in ascending order,
    with a row of the group that holds the group's maximum. *)
Lemma reduce_frame_spec (df : frame R) :
  NoDup (map fst df) ->
  exists T, reduce_frame key counter df = Ok T
            /\ Forall2 (selected key counter df) (group_keys key df) T.
Proof.
  intros Hnd.
  destruct (reduce_keys df (group_keys key df) Hnd) as (idx & T & Hidx & _ & HT & Hsel).
  { intros k. by rewrite group_keys_elem. }
  exists T. split; [|done].
  unfold reduce_frame, groupby_idxmax. by rewrite Hidx.
Qed.

Lemma selected_keys (df : frame R) ks T :
  Forall2 (selected key counter df) ks T -> map (fun p => key (snd p)) T = ks.
Proof.
  induction 1 as [|k p ks T (_ & Hk & _) _ IH]; simpl; [done|]. by rewrite Hk, IH.
Qed.

Lemma selected_rows (df : frame R) ks T p :
  Forall2 (selected key counter df) ks T -> p ∈ T ->
  selected key counter df (key (snd p)) p.
Proof.
  induction 1 as [|k q ks T Hq _ IH]; intros Hp.
  { by apply elem_of_nil in Hp. }
  apply elem_of_cons in Hp as [->|Hp]; [|by apply IH].
  destruct Hq as (? & <- & ?). done.
Qed.

Lemma selected_labels_NoDup (df : frame R) ks T :
  NoDup (map fst df) -> NoDup ks ->
  Forall2 (selected key counter df) ks T -> NoDup (map fst T).
Proof.
  intros Hnd Hks Hsel.
  apply NoDup_fmap_2_strong.
  - intros x y Hx Hy. apply (unique_label df); [done| |].
    + by destruct (selected_rows df ks T x Hsel Hx).
    + by destruct (selected_rows df ks T y Hsel Hy).
  - apply (NoDup_fmap_1 (fun p => key (snd p))).
    change (NoDup (map (fun p => key (snd p)) T)).
    by rewrite (selected_keys df ks T Hsel).
Qed.

(** Rows appended to a frame change nothing when each of them has, in the
    frame, a row of its key with a counter at least as large. *)
Lemma reduce_frame_app_dominated (df d2 : frame R) :
  NoDup (map fst (df ++ d2)) ->
  (forall q, q ∈ d2 ->
     exists p, p ∈ df /\ key (snd p) = key (snd q) /\ counter (snd q) <= counter (snd p)) ->
  reduce_frame key counter (df ++ d2) = reduce_frame key counter df.
Proof.
  intros Hnd Hdom.
  rewrite map_app in Hnd. apply NoDup_app in Hnd as (Hnd1 & Hdisj & _).
  assert (group_keys key (df ++ d2) = group_keys key df) as Hkeys.
  { apply group_keys_same_keys. intros k. split.
    - intros (p & Hp & Hk). apply elem_of_app in Hp as [Hp|Hp]; [by eauto|].
      destruct (Hdom p Hp) as (p' & Hp' & Hk' & _). exists p'. split; [done|congruence].
    - intros (p & Hp & Hk). exists p. split; [|done]. apply elem_of_app. by left. }
  destruct (reduce_keys df (group_keys key df) Hnd1)
    as (idx & T & Hidx & Hlab & HT & Hsel).
  { intros k. by rewrite group_keys_elem. }
  unfold reduce_frame, groupby_idxmax. rewrite Hkeys.
  rewrite (rmapM_ext _ (fun k => let* l := idxmax (column counter (get_group key df k)) in Ok (k, l))).
  - rewrite Hidx. simpl. unfold loc_labels. f_equal.
    apply rmapM_ext. intros l Hl. unfold rows_at.
    rewrite filter_app. fold (rows_at df l). fold (rows_at d2 l).
    rewrite (rows_at_absent d2 l), app_nil_r; [done|].
    apply Hdisj. rewrite Hlab in Hl.
    apply list_elem_of_fmap in Hl as (p & -> & Hp). apply list_elem_of_fmap_2.
    by destruct (selected_rows df _ T p Hsel Hp).
  - intros k Hk. apply group_keys_elem in Hk.
    destruct (idxmax_group df k Hk) as (p & Hp & _).
    unfold get_group, column. rewrite filter_app, map_app.
    fold (get_group key df k). fold (get_group key d2 k).
    fold (column counter (get_group key df k)). fold (column counter (get_group key d2 k)).
    rewrite (idxmax_app_dominated _ _ (fst p)), Hp; [done|done|].
    intros y Hy. apply list_elem_of_fmap in Hy as (q & -> & Hq).
    apply list_elem_of_filter in Hq as [Hkq Hq].
    destruct (Hdom q Hq) as (p' & Hp' & Hk' & Hle).
    exists (fst p', counter (snd p')). split; [|done].
    apply (list_elem_of_fmap_2 (fun p => (fst p, counter (snd p)))).
    apply list_elem_of_filter. split; [congruence|done].
Qed.

(** C1: the reduction of a batch with records (the batches that pass the
    [if data:] test) succeeds; the reduced table has one row per distinct
    grouping key of the batch (its key column has no repeated value and holds
    exactly the keys of the batch), and each row is a record of the batch
    whose counter no record of the same key exceeds, that is, the maximum
    counter of its key. *)
Theorem reduce_one_record_per_key (data : list R) :
  data <> [] ->
  exists T,
    reduce key_name key counter data = Ok T
    /\ NoDup (map (fun p => key (snd p)) T)
    /\ (forall k, k ∈ map (fun p => key (snd p)) T <-> k ∈ map key data)
    /\ (forall p, p ∈ T ->
          snd p ∈ data
          /\ forall r, r ∈ data -> key r = key (snd p) -> counter r <= counter (snd p)).
Proof.
  intros Hdata. rewrite (reduce_nonempty data Hdata).
  destruct (reduce_frame_spec (DataFrame data) (DataFrame_labels_NoDup data))
    as (T & HT & Hsel).
  exists T. split; [done|].
  rewrite (selected_keys _ _ _ Hsel).
  split; [apply group_keys_NoDup|]. split.
  - intros k. rewrite group_keys_elem, list_elem_of_fmap. split.
    + intros (p & Hp & <-). exists (snd p). split; [done|by apply DataFrame_elem].
    + intros (r & -> & Hr). destruct (DataFrame_elem_inv data r Hr) as (p & Hp & <-).
      by exists p.
  - intros p Hp. destruct (selected_rows _ _ _ p Hsel Hp) as (Hpdf & _ & Hmax).
    split; [by apply DataFrame_elem|].
    intros r Hr Hk. destruct (DataFrame_elem_inv data r Hr) as (q & Hq & <-).
    by apply Hmax.
Qed.

(** C3: reducing a batch followed by a copy of itself gives the table that
    reducing the batch gives: the same rows with the same contents, in the
    same order and under the same labels. *)
Theorem reduce_duplicated_batch (data : list R) :
  reduce key_name key counter (data ++ data) = reduce key_name key counter data.
Proof.
  destruct (decide (data = [])) as [->|Hdata]; [done|].
  rewrite !reduce_nonempty by (by destruct data).
  unfold DataFrame. rewrite with_index_app.
  apply reduce_frame_app_dominated.
  - rewrite <- with_index_app. apply DataFrame_labels_NoDup.
  - intros q Hq.
    assert (snd q ∈ data) as Hr.
    { rewrite <- (with_index_rows (0 + length data)%nat data). by apply list_elem_of_fmap_2. }
    destruct (DataFrame_elem_inv data _ Hr) as (p & Hp & Hpq).
    exists p. rewrite Hpq. by repeat split.
Qed.

(** C2, as the code has it: for a batch with records the leading record is
    a record of the batch with the largest counter of the batch, and among
    the keys that tie on that counter it carries the smallest one in the
    ascending key order of the grouping. *)
Theorem leading_of_batch_max (data : list R) :
  data <> [] ->
  exists r,
    leading_of_batch key_name key counter data = Ok r
    /\ r ∈ data
    /\ (forall r', r' ∈ data -> counter r' <= counter r)
    /\ (forall r', r' ∈ data -> counter r' = counter r -> String.le (key r) (key r')).
Proof.
  intros Hdata.
  pose proof (DataFrame_labels_NoDup data) as Hnd.
  destruct (reduce_frame_spec (DataFrame data) Hnd) as (T & HT & Hsel).
  pose proof (selected_keys _ _ _ Hsel) as Hkeys.
  pose proof (selected_labels_NoDup _ _ _ Hnd (group_keys_NoDup _) Hsel) as HndT.
  set (f := fun p : label * R => (fst p, counter (snd p))).
  (* every record of the batch is represented in the reduced table *)
  assert (forall r', r' ∈ data ->
            exists q, q ∈ T /\ key (snd q) = key r' /\ counter r' <= counter (snd q)) as Hrep.
  { intros r' Hr'. destruct (DataFrame_elem_inv data r' Hr') as (q' & Hq' & <-).
    assert (key (snd q') ∈ group_keys key (DataFrame data)) as Hk
      by (apply group_keys_elem; eauto).
    rewrite <- Hkeys in Hk. apply list_elem_of_fmap in Hk as (q & Hkq & Hq).
    exists q. split; [done|]. split; [done|].
    destruct (selected_rows _ _ _ q Hsel Hq) as (_ & _ & Hmax). by apply Hmax. }
  destruct T as [|t0 T'].
  { destruct data as [|r0 data]; [done|].
    destruct (Hrep r0) as (q & Hq & _); [left|]. by apply elem_of_nil in Hq. }
  destruct (fold_pick_spec (map f T') (f t0)) as (s1 & s2 & Heq & H1 & H2).
  change (f t0 :: map f T') with (f <$> (t0 :: T')) in Heq.
  apply fmap_app_inv in Heq as (T1 & T2' & -> & Heq2 & HTeq).
  symmetry in Heq2. apply fmap_cons_inv in Heq2 as (p & T2 & Hb & -> & ->).
  assert (p ∈ t0 :: T') as Hp by (rewrite HTeq; apply elem_of_app; right; left).
  exists (snd p). split.
  { unfold leading_of_batch. rewrite (reduce_nonempty data Hdata), HT.
    simpl. unfold leading. simpl.
    change (fold_left pick (column counter T') (fst t0, counter (snd t0)))
      with (fold_left pick (map f T') (f t0)).
    rewrite Hb. simpl. unfold loc_label. by rewrite (rows_at_unique _ p HndT Hp). }
  rewrite Hb in H1, H2. simpl in H1, H2.
  rewrite Forall_fmap in H1, H2. rewrite Forall_forall in H1, H2.
  split.
  { destruct (selected_rows _ _ _ p Hsel Hp) as (Hpdf & _). by apply DataFrame_elem. }
  assert (forall q, q ∈ t0 :: T' -> counter (snd q) <= counter (snd p)) as Hle.
  { intros q Hq. rewrite HTeq in Hq.
    apply elem_of_app in Hq as [Hq|Hq]; [specialize (H1 q Hq); simpl in H1; lia|].
    apply elem_of_cons in Hq as [->|Hq]; [lia|]. apply (H2 q Hq). }
  split.
  { intros r' Hr'. destruct (Hrep r' Hr') as (q & Hq & _ & Hrq).
    specialize (Hle q Hq). lia. }
  intros r' Hr' Htie. destruct (Hrep r' Hr') as (q & Hq & Hkq & Hrq).
  rewrite <- Hkq. rewrite HTeq in Hq.
  apply elem_of_app in Hq as [Hq|Hq]; [specialize (H1 q Hq); simpl in H1; lia|].
  apply elem_of_cons in Hq as [->|Hq]; [done|].
  pose proof (group_keys_sorted (DataFrame data)) as Hsorted.
  rewrite <- Hkeys, HTeq, map_app in Hsorted. simpl in Hsorted.
  apply StronglySorted_app_1_r, StronglySorted_cons in Hsorted as [Hfa _].
  rewrite Forall_forall in Hfa. apply Hfa.
  by apply (list_elem_of_fmap_2 (fun p => key (snd p))).
Qed.
End ReduceFacts.

(** ** The scalar statistics read *)

Lemma fetch_voting_stats_raise {R} (pg : postgres) (e : exn) :
  query_voting_stats pg = Raise e ->
  @fetch_voting_stats R pg
  = ([st_error [Lit "Error fetching voting stats: "; Str (exn_str e)]], Ok (0, 0)).
Proof. intros He. unfold fetch_voting_stats, lift. by rewrite He. Qed.

Lemma fetch_voting_stats_ok {R} (pg : postgres) (v : Z * Z) :
  query_voting_stats pg = Ok v -> @fetch_voting_stats R pg = ([], Ok v).
Proof. intros Hv. unfold fetch_voting_stats, lift. by rewrite Hv. Qed.

(** C8: when any step of the statistics read raises (connecting, opening the
    cursor, either query, either fetch, either close), [fetch_voting_stats]
    returns the pair (0, 0) and puts one notice on the page with [st.error],
    which only draws a message; no exception leaves the function.  The
    refresh pass then goes on exactly as the pass of a database that answered
    0 and 0 does, the notice apart. *)
Theorem stats_failure_is_not_fatal sort_values (w : world) (e : exn) :
  query_voting_stats (db w) = Raise e ->
  @fetch_voting_stats turnout_row (db w)
  = ([st_error [Lit "Error fetching voting stats: "; Str (exn_str e)]], Ok (0, 0))
  /\ exists rest r,
       update_data sort_values (with_db w db_zero)
       = (st_text [Lit "Last refreshed at: "; Str (clock_text w)] :: rest, r)
       /\ update_data sort_values w
          = (st_text [Lit "Last refreshed at: "; Str (clock_text w)]
             :: st_error [Lit "Error fetching voting stats: "; Str (exn_str e)]
             :: rest, r).
Proof.
  intros He. split; [by apply fetch_voting_stats_raise|].
  unfold update_data.
  rewrite (fetch_voting_stats_raise (db w) e He).
  rewrite (fetch_voting_stats_ok (db (with_db w db_zero)) (0, 0)) by done.
  cbn [with_db clock_text clock votes_topic turnout_topic widget matplotlib].
  match goal with |- context [bind (_, Ok (0, 0)) ?k] => set (K := k) end.
  clearbody K. unfold bind, emit. destruct (K (0, 0)) as [evs r]. simpl.
  by exists evs, r.
Qed.

(** [fetch_voting_stats] never raises. *)
Lemma fetch_voting_stats_returns {R} (pg : postgres) :
  exists evs v, @fetch_voting_stats R pg = (evs, Ok v).
Proof.
  destruct (query_voting_stats pg) as [v|e] eqn:Hq.
  - exists [], v. by apply fetch_voting_stats_ok.
  - eexists _, _. by apply fetch_voting_stats_raise.
Qed.

(** ** Concrete runs *)

Lemma insert_row_Permutation by_ x l : insert_row by_ x l ≡ₚ x :: l.
Proof.
  induction l as [|y l IH]; simpl; [done|].
  destruct (decide (row_le by_ x y)); [done|].
  rewrite IH. apply perm_swap.
Qed.

Lemma stable_sort_Permutation by_ df : stable_sort by_ df ≡ₚ df.
Proof.
  unfold stable_sort. induction df as [|x df IH]; simpl; [done|].
  by rewrite insert_row_Permutation, IH.
Qed.

Lemma sort_values_stable_perm df by_ asc :
  map snd (sort_values_stable df by_ asc) ≡ₚ map snd df.
Proof.
  unfold sort_values_stable, reset_index, DataFrame. rewrite with_index_rows.
  apply Permutation_map. destruct asc.
  - apply stable_sort_Permutation.
  - by rewrite reverse_Permutation, stable_sort_Permutation, reverse_Permutation.
Qed.

(** Rows with equal counts stay in their order, in both directions. *)
Example sort_values_stable_ties :
  let df := DataFrame [{| state := "Iowa"; count := 5 |};
                       {| state := "Ohio"; count := 5 |};
                       {| state := "Texas"; count := 5 |};
                       {| state := "Utah"; count := 2 |}] in
  map (fun p => state (snd p)) (sort_values_stable df "count" true)
  = ["Utah"; "Iowa"; "Ohio"; "Texas"]
  /\ map (fun p => state (snd p)) (sort_values_stable df "count" false)
     = ["Iowa"; "Ohio"; "Texas"; "Utah"].
Proof. split; reflexivity. Qed.

(** The scenario of the specification: records A:10, B:30, A:25 reduce to
    A:25 and B:30, and B:30 leads. *)
Example reduce_scenario :
  reduce "candidate_id" candidate_id total_votes [vote "A" 10; vote "B" 30; vote "A" 25]
  = Ok [(2%nat, vote "A" 25); (1%nat, vote "B" 30)]
  /\ leading_of_batch "candidate_id" candidate_id total_votes
       [vote "A" 10; vote "B" 30; vote "A" 25]
     = Ok (vote "B" 30).
Proof. split; reflexivity. Qed.

(** C2, counterexample: in the batch B:10, A:10 both keys tie on the leading
    counter and B appears first, yet A leads. *)
Lemma leading_tie_not_first_seen :
  ~ ties_go_to_first_seen "candidate_id" candidate_id total_votes
      [vote "B" 10; vote "A" 10].
Proof.
  intros H.
  specialize (H (vote "A" 10) eq_refl (vote "B" 10)).
  assert (vote "B" 10 ∈ [vote "B" 10; vote "A" 10]) as Hin by left.
  specialize (H Hin eq_refl). vm_compute in H. lia.
Qed.

(** C6, counterexample: on the 23-row table with pages of 10 the paginator
    reports 2 pages and shows 10 rows on page 1, but page 2 shows 10 rows,
    not 13. *)
Lemma page_two_of_23_is_not_13_rows :
  ~ (reported_total_pages
       (fst (paginate_table turnout_columns sort_values_stable (pages_of_10 1) table23)) = [2]
     /\ map length (displayed
          (fst (paginate_table turnout_columns sort_values_stable (pages_of_10 1) table23)))
        = [10%nat]
     /\ map length (displayed
          (fst (paginate_table turnout_columns sort_values_stable (pages_of_10 2) table23)))
        = [13%nat]).
Proof. intros (_ & _ & H). vm_compute in H. discriminate H. Qed.

(** ** The theorems at concrete inputs *)

Lemma reduce_one_record_per_key_witness :
  [vote "A" 10; vote "B" 30; vote "A" 25] <> []
  /\ exists T,
       reduce "candidate_id" candidate_id total_votes
         [vote "A" 10; vote "B" 30; vote "A" 25] = Ok T
       /\ NoDup (map (fun p => candidate_id (snd p)) T)
       /\ (forall k, k ∈ map (fun p => candidate_id (snd p)) T
                     <-> k ∈ map candidate_id [vote "A" 10; vote "B" 30; vote "A" 25])
       /\ (forall p, p ∈ T ->
             snd p ∈ [vote "A" 10; vote "B" 30; vote "A" 25]
             /\ forall r, r ∈ [vote "A" 10; vote "B" 30; vote "A" 25] ->
                  candidate_id r = candidate_id (snd p) ->
                  total_votes r <= total_votes (snd p)).
Proof.
  assert ([vote "A" 10; vote "B" 30; vote "A" 25] <> []) as H by discriminate.
  split; [exact H|].
  exact (reduce_one_record_per_key "candidate_id" candidate_id total_votes
           [vote "A" 10; vote "B" 30; vote "A" 25] H).
Defined.

Lemma reported_total_pages_formula_witness :
  (forall df by_ asc, map snd (sort_values_stable df by_ asc) ≡ₚ map snd df)
  /\ 0 < page_size (pages_of_10 1)
  /\ reported_total_pages
       (fst (paginate_table turnout_columns sort_values_stable (pages_of_10 1) table23))
     = (if df_empty table23 then []
        else [Z.of_nat (spec_total_pages (length table23)
                          (Z.to_nat (page_size (pages_of_10 1))))]).
Proof.
  split; [exact sort_values_stable_perm|]. split; [reflexivity|].
  apply (reported_total_pages_formula turnout_columns sort_values_stable
           sort_values_stable_perm (pages_of_10 1) table23).
  reflexivity.
Defined.

Lemma selected_page_in_bounds_witness :
  (forall df by_ asc, map snd (sort_values_stable df by_ asc) ≡ₚ map snd df)
  /\ table23 <> []
  /\ page_size (pages_of_10 2) ∈ [10; 25; 50; 100]
  /\ 1 <= page (pages_of_10 2)
       <= Z.max 1 (Z.of_nat (length table23) / page_size (pages_of_10 2))
  /\ exists pages shown,
       split_frame (sorted_table sort_values_stable (pages_of_10 2) table23)
                   (page_size (pages_of_10 2)) = Ok pages
       /\ Z.max 1 (Z.of_nat (length table23) / page_size (pages_of_10 2))
          <= Z.of_nat (length pages)
       /\ pages !! Z.to_nat (page (pages_of_10 2) - 1) = Some shown
       /\ py_getitem pages (page (pages_of_10 2) - 1) = Ok shown
       /\ snd (paginate_table turnout_columns sort_values_stable (pages_of_10 2) table23)
          = Ok tt
       /\ displayed
            (fst (paginate_table turnout_columns sort_values_stable (pages_of_10 2) table23))
          = [shown].
Proof.
  assert (table23 <> []) as H1 by (vm_compute; discriminate).
  assert (page_size (pages_of_10 2) ∈ [10; 25; 50; 100]) as H2 by left.
  assert (1 <= page (pages_of_10 2)
          <= Z.max 1 (Z.of_nat (length table23) / page_size (pages_of_10 2))) as H3
    by (vm_compute; split; discriminate).
  split; [exact sort_values_stable_perm|]. do 3 (split; [assumption|]).
  exact (selected_page_in_bounds turnout_columns sort_values_stable
           sort_values_stable_perm (pages_of_10 2) table23 H1 H2 H3).
Defined.

Lemma pages_of_23_rows_by_10_witness :
  (forall df by_ asc, map snd (sort_values_stable df by_ asc) ≡ₚ map snd df)
  /\ length table23 = 23%nat
  /\ page_size (pages_of_10 2) = 10
  /\ (page (pages_of_10 2) = 1 \/ page (pages_of_10 2) = 2)
  /\ reported_total_pages
       (fst (paginate_table turnout_columns sort_values_stable (pages_of_10 2) table23)) = [2]
  /\ (exists shown,
        displayed
          (fst (paginate_table turnout_columns sort_values_stable (pages_of_10 2) table23))
        = [shown]
        /\ length shown = 10%nat)
  /\ (exists p1 p2 p3,
        split_frame (sorted_table sort_values_stable (pages_of_10 2) table23)
                    (page_size (pages_of_10 2)) = Ok [p1; p2; p3]
        /\ length p1 = 10%nat /\ length p2 = 10%nat /\ length p3 = 3%nat).
Proof.
  split; [exact sort_values_stable_perm|].
  split; [reflexivity|]. split; [reflexivity|]. split; [by right|].
  exact (pages_of_23_rows_by_10 turnout_columns sort_values_stable
           sort_values_stable_perm (pages_of_10 2) table23
           eq_refl eq_refl (or_intror eq_refl)).
Defined.

Lemma split_frame_concat_witness :
  0 < 10
  /\ exists pages, split_frame table23 10 = Ok pages /\ concat pages = table23.
Proof. split; [reflexivity|]. apply (split_frame_concat table23 10). reflexivity. Defined.

Lemma leading_of_batch_max_witness :
  [vote "B" 10; vote "A" 10] <> []
  /\ exists r,
       leading_of_batch "candidate_id" candidate_id total_votes
         [vote "B" 10; vote "A" 10] = Ok r
       /\ r ∈ [vote "B" 10; vote "A" 10]
       /\ (forall r', r' ∈ [vote "B" 10; vote "A" 10] -> total_votes r' <= total_votes r)
       /\ (forall r', r' ∈ [vote "B" 10; vote "A" 10] -> total_votes r' = total_votes r ->
             String.le (candidate_id r) (candidate_id r')).
Proof.
  assert ([vote "B" 10; vote "A" 10] <> []) as H by discriminate.
  split; [exact H|].
  exact (leading_of_batch_max "candidate_id" candidate_id total_votes
           [vote "B" 10; vote "A" 10] H).
Defined.

Lemma stats_failure_is_not_fatal_witness :
  query_voting_stats (db world_db_down) = Raise (OtherError "connection refused")
  /\ @fetch_voting_stats turnout_row (db world_db_down)
     = ([st_error [Lit "Error fetching voting stats: ";
                   Str (exn_str (OtherError "connection refused"))]], Ok (0, 0))
  /\ exists rest r,
       update_data sort_values_stable (with_db world_db_down db_zero)
       = (st_text [Lit "Last refreshed at: "; Str (clock_text world_db_down)] :: rest, r)
       /\ update_data sort_values_stable world_db_down
          = (st_text [Lit "Last refreshed at: "; Str (clock_text world_db_down)]
             :: st_error [Lit "Error fetching voting stats: ";
                          Str (exn_str (OtherError "connection refused"))]
             :: rest, r).
Proof.
  split; [reflexivity|].
  exact (stats_failure_is_not_fatal sort_values_stable world_db_down
           (OtherError "connection refused") eq_refl).
Defined.

(** * Further properties of the script *)

(** ** The reduction: order, ties, stale and reordered records *)

Lemma with_index_elem {R} (i : nat) (data : list R) (l : nat) (r : R) :
  (l, r) ∈ with_index i data <-> (i <= l)%nat /\ data !! (l - i)%nat = Some r.
Proof.
  revert i. induction data as [|a data IH]; intros i; simpl.
  { split; [intros H; by apply elem_of_nil in H|intros [_ H]; done]. }
  rewrite elem_of_cons, IH. split.
  - intros [Heq|[Hle Hl]].
    + injection Heq as -> ->. split; [lia|]. by rewrite Nat.sub_diag.
    + split; [lia|]. destruct (l - i)%nat as [|j] eqn:Hj; [lia|].
      simpl. rewrite <- Hl. f_equal. lia.
  - intros [Hle Hl]. destruct (l - i)%nat as [|j] eqn:Hj; simpl in Hl.
    + left. injection Hl as ->. f_equal. lia.
    + right. split; [lia|]. rewrite <- Hl. f_equal. lia.
Qed.

Lemma DataFrame_lookup {R} (data : list R) (l : nat) (r : R) :
  (l, r) ∈ DataFrame data <-> data !! l = Some r.
Proof.
  unfold DataFrame. rewrite with_index_elem, Nat.sub_0_r.
  split; [by intros [_ H]|intros H; split; [lia|done]].
Qed.

Lemma DataFrame_labels_sorted {R} (data : list R) :
  StronglySorted lt (map fst (DataFrame data)).
Proof.
  unfold DataFrame. rewrite with_index_labels. generalize 0%nat.
  induction (length data) as [|n IH]; intros i; simpl; constructor; [apply IH|].
  apply Forall_forall. intros j Hj. apply elem_of_seq in Hj. lia.
Qed.

Lemma labels_sorted_filter {R} (P : nat * R -> Prop) `{forall x, Decision (P x)}
    (df : list (nat * R)) :
  StronglySorted lt (map fst df) -> StronglySorted lt (map fst (filter P df)).
Proof.
  induction df as [|a df IH]; intros Hs; [constructor|].
  simpl in Hs. apply StronglySorted_cons in Hs as [Ha Hs].
  rewrite filter_cons. destruct (decide (P a)); [|by apply IH].
  simpl. constructor; [by apply IH|].
  rewrite Forall_forall in Ha. apply Forall_forall. intros l Hl.
  apply list_elem_of_fmap in Hl as (q & -> & Hq).
  apply list_elem_of_filter in Hq as [_ Hq].
  apply Ha. by apply list_elem_of_fmap_2.
Qed.

Lemma strongly_sorted_strict (ks : list string) :
  StronglySorted String.le ks -> NoDup ks -> StronglySorted (strict String.le) ks.
Proof.
  induction 1 as [|k ks Hs IH Hk]; intros Hnd; [constructor|].
  apply NoDup_cons in Hnd as [Hk' Hnd]. constructor; [by apply IH|].
  rewrite Forall_forall in Hk. apply Forall_forall. intros k' Hin.
  split; [by apply Hk|]. intros Hle.
  assert (k = k') as -> by (apply (anti_symm String.le); [by apply Hk|done]).
  done.
Qed.

Section ReduceMore.
Context {R : Type}.
Variable key_name : string.
Variable key : R -> string.
Variable counter : R -> Z.

Lemma idxmax_group_first (df : list (nat * R)) (k : string) :
  StronglySorted lt (map fst df) ->
  (exists p, p ∈ df /\ key (snd p) = k) ->
  exists p, idxmax (column counter (get_group key df k)) = Ok (fst p)
            /\ selected_first key counter df k p.
Proof.
  intros Hsorted (p0 & Hp0 & Hk0).
  assert (p0 ∈ get_group key df k) as Hg by (by apply list_elem_of_filter).
  pose proof (labels_sorted_filter (fun p => key (snd p) = k) df Hsorted) as Hgs.
  fold (get_group key df k) in Hgs.
  assert (forall q, q ∈ get_group key df k <-> key (snd q) = k /\ q ∈ df) as Hgrp
    by (intros q; exact (list_elem_of_filter (fun p => key (snd p) = k) df q)).
  unfold column.
  destruct (get_group key df k) as [|x g]; [by apply elem_of_nil in Hg|].
  set (f := fun p : nat * R => (fst p, counter (snd p))).
  destruct (fold_pick_spec (map f g) (f x)) as (s1 & s2 & Heq & H1 & H2).
  change (f x :: map f g) with (f <$> (x :: g)) in Heq.
  apply fmap_app_inv in Heq as (G1 & G2' & -> & Heq2 & HG).
  symmetry in Heq2. apply fmap_cons_inv in Heq2 as (p & G2 & Hb & -> & ->).
  rewrite Hb in H1, H2. simpl in H1, H2.
  rewrite Forall_fmap, Forall_forall in H1. rewrite Forall_fmap, Forall_forall in H2.
  assert (p ∈ x :: g) as Hp by (rewrite HG; apply elem_of_app; right; left).
  exists p. split.
  { simpl. change (fold_left pick (map f g) (f x)) with (fold_left pick (map f g) (f x)).
    change (fst x, counter (snd x)) with (f x). by rewrite Hb. }
  destruct (proj1 (Hgrp p) Hp) as [Hkp Hpdf].
  split; [done|]. split; [done|]. split.
  - intros q Hq Hkq.
    assert (q ∈ x :: g) as Hqg by (by apply Hgrp).
    rewrite HG in Hqg. apply elem_of_app in Hqg as [Hqg|Hqg].
    + specialize (H1 q Hqg). simpl in H1. lia.
    + apply elem_of_cons in Hqg as [->|Hqg]; [lia|]. apply (H2 q Hqg).
  - intros q Hq Hkq Hlt.
    assert (q ∈ x :: g) as Hqg by (by apply Hgrp).
    rewrite HG in Hqg, Hgs. rewrite map_app in Hgs. simpl in Hgs.
    apply elem_of_app in Hqg as [Hqg|Hqg]; [apply (H1 q Hqg)|].
    apply elem_of_cons in Hqg as [->|Hqg]; [lia|].
    apply StronglySorted_app_1_r, StronglySorted_cons in Hgs as [Hfa _].
    rewrite Forall_forall in Hfa.
    specialize (Hfa (fst q) (list_elem_of_fmap_2 fst _ _ Hqg)). lia.
Qed.

Lemma reduce_keys_first (df : list (nat * R)) (ks : list string) :
  NoDup (map fst df) -> StronglySorted lt (map fst df) ->
  (forall k, k ∈ ks -> exists p, p ∈ df /\ key (snd p) = k) ->
  exists idx T,
    rmapM (fun k => let* l := idxmax (column counter (get_group key df k)) in Ok (k, l)) ks
    = Ok idx
    /\ loc_labels df (map snd idx) = Ok T
    /\ Forall2 (selected_first key counter df) ks T.
Proof.
  intros Hnd Hsorted. induction ks as [|k ks IH]; intros Hks.
  { exists [], []. by repeat split. }
  destruct IH as (idx & T & Hidx & HT & Hsel).
  { intros k' Hk'. apply Hks. by right. }
  destruct (idxmax_group_first df k Hsorted) as (p & Hp & Hselp); [apply Hks; left|].
  exists ((k, fst p) :: idx), (p :: T). simpl. rewrite Hp, Hidx. simpl.
  split; [done|]. split; [|by constructor].
  apply loc_labels_cons; [|done].
  apply rows_at_unique; [done|]. by destruct Hselp.
Qed.

(** What the reduction of a batch is: it succeeds, and pairs the group keys,
    in ascending order, with the first record of each key that holds the
    key's maximum. *)
Lemma reduce_first_spec (data : list R) :
  exists T, reduce_frame key counter (DataFrame data) = Ok T
            /\ Forall2 (selected_first key counter (DataFrame data))
                       (group_keys key (DataFrame data)) T.
Proof.
  destruct (reduce_keys_first (DataFrame data) (group_keys key (DataFrame data))
              (DataFrame_labels_NoDup data) (DataFrame_labels_sorted data))
    as (idx & T & Hidx & HT & Hsel).
  { intros k. by rewrite group_keys_elem. }
  exists T. split; [|done].
  unfold reduce_frame, groupby_idxmax. by rewrite Hidx.
Qed.

Lemma selected_first_keys (df : list (nat * R)) ks T :
  Forall2 (selected_first key counter df) ks T -> map (fun p => key (snd p)) T = ks.
Proof.
  induction 1 as [|k p ks T (_ & Hk & _) _ IH]; simpl; [done|]. by rewrite Hk, IH.
Qed.

Lemma selected_first_rows (df : list (nat * R)) ks T p :
  Forall2 (selected_first key counter df) ks T -> p ∈ T ->
  selected_first key counter df (key (snd p)) p.
Proof.
  induction 1 as [|k q ks T Hq _ IH]; intros Hp.
  { by apply elem_of_nil in Hp. }
  apply elem_of_cons in Hp as [->|Hp]; [|by apply IH].
  destruct Hq as (? & <- & ?). done.
Qed.

Lemma group_keys_of_batch (data : list R) (k : string) :
  k ∈ group_keys key (DataFrame data) <-> k ∈ map key data.
Proof.
  rewrite group_keys_elem, list_elem_of_fmap. split.
  - intros (p & Hp & <-). exists (snd p). split; [done|by apply DataFrame_elem].
  - intros (r & -> & Hr). destruct (DataFrame_elem_inv data r Hr) as (p & Hp & <-).
    by exists p.
Qed.

(** X1: for a batch with records the reduced table is in strictly ascending
    order of the grouping key, whatever the order of the batch. *)
Theorem reduce_sorted_by_key (data : list R) :
  data <> [] ->
  exists T, reduce key_name key counter data = Ok T
            /\ StronglySorted (strict String.le) (map (fun p => key (snd p)) T).
Proof.
  intros Hdata. rewrite (reduce_nonempty key_name key counter data Hdata).
  destruct (reduce_first_spec data) as (T & HT & Hsel).
  exists T. split; [done|].
  rewrite (selected_first_keys _ _ _ Hsel).
  apply strongly_sorted_strict; [apply group_keys_sorted|apply group_keys_NoDup].
Qed.

(** X2: for a batch with records, every row of the reduced table keeps, as
    its label, its position in the batch, and it is the first record of its
    key to hold the key's maximum: an earlier record of the same key has a
    strictly smaller counter. *)
Theorem reduce_keeps_first_maximum (data : list R) :
  data <> [] ->
  exists T, reduce key_name key counter data = Ok T
    /\ forall l r, (l, r) ∈ T ->
         data !! l = Some r
         /\ forall j r', (j < l)%nat -> data !! j = Some r' -> key r' = key r ->
              counter r' < counter r.
Proof.
  intros Hdata. rewrite (reduce_nonempty key_name key counter data Hdata).
  destruct (reduce_first_spec data) as (T & HT & Hsel).
  exists T. split; [done|]. intros l r Hlr.
  destruct (selected_first_rows _ _ _ _ Hsel Hlr) as (Hdf & _ & _ & Hfirst).
  split; [by apply DataFrame_lookup|].
  intros j r' Hj Hr' Hk.
  apply (Hfirst (j, r')); [by apply DataFrame_lookup|done|done].
Qed.

Lemma selected_first_selected (df : list (nat * R)) ks T :
  Forall2 (selected_first key counter df) ks T ->
  Forall2 (selected key counter df) ks T.
Proof.
  intros H. eapply Forall2_impl; [exact H|].
  intros k p (H1 & H2 & H3 & _). by repeat split.
Qed.

(** The row [leading] takes from a table with distinct labels. *)
Lemma leading_ok (T : list (nat * R)) :
  NoDup (map fst T) -> T <> [] ->
  exists p, p ∈ T /\ leading counter T = Ok (snd p)
            /\ forall q, q ∈ T -> counter (snd q) <= counter (snd p).
Proof.
  intros Hnd HT. destruct T as [|t0 T']; [done|].
  set (f := fun p : nat * R => (fst p, counter (snd p))).
  destruct (fold_pick_max (map f T') (f t0)) as [Hin Hmax].
  change (f t0 :: map f T') with (f <$> (t0 :: T')) in Hin, Hmax.
  apply list_elem_of_fmap in Hin as (p & Hb & Hp).
  exists p. split; [done|]. split.
  - unfold leading. simpl.
    change (fold_left pick (column counter T') (fst t0, counter (snd t0)))
      with (fold_left pick (map f T') (f t0)).
    rewrite Hb. simpl. unfold loc_label. by rewrite (rows_at_unique _ p Hnd Hp).
  - intros q Hq. rewrite Forall_fmap, Forall_forall in Hmax.
    specialize (Hmax q Hq). simpl in Hmax. by rewrite Hb in Hmax.
Qed.

(** X3: on the empty batch the computation of the leading record stops at
    [groupby]: the frame of no record has no column, and [KeyError] is
    raised on the name of the grouping column; every batch with a record has
    a leading record.  The empty batch is the case the [if data:] test of
    [update_data] keeps away. *)
Theorem leading_of_batch_empty_only (data : list R) :
  match data with
  | [] => leading_of_batch key_name key counter data
          = Raise (KeyError (String.append "'" (String.append key_name "'")))
  | _ :: _ => exists r, leading_of_batch key_name key counter data = Ok r
  end.
Proof.
  destruct data as [|r0 data]; [reflexivity|].
  destruct (reduce_first_spec (r0 :: data)) as (T & HT & Hsel).
  apply selected_first_selected in Hsel.
  pose proof (selected_labels_NoDup key counter _ _ _
                (DataFrame_labels_NoDup (r0 :: data)) (group_keys_NoDup key _) Hsel) as Hnd.
  assert (T <> []) as HT0.
  { intros ->. apply Forall2_length in Hsel. simpl in Hsel.
    assert (key r0 ∈ group_keys key (DataFrame (r0 :: data))) as Hk
      by (apply group_keys_of_batch; left).
    destruct (group_keys key (DataFrame (r0 :: data))); [by apply elem_of_nil in Hk|done]. }
  destruct (leading_ok T Hnd HT0) as (p & _ & Hp & _).
  exists (snd p). unfold leading_of_batch, reduce. by rewrite HT.
Qed.

(** X4: records that bring nothing new are ignored: appending to a batch
    records whose key already has, in the batch, a record with a counter at
    least as large leaves the reduced table as it was. *)
Theorem reduce_ignores_stale (data stale : list R) :
  (forall s, s ∈ stale -> exists r, r ∈ data /\ key r = key s /\ counter s <= counter r) ->
  reduce key_name key counter (data ++ stale) = reduce key_name key counter data.
Proof.
  intros Hstale.
  destruct data as [|r0 data].
  { destruct stale as [|s0 stale]; [done|].
    destruct (Hstale s0) as (r & Hr & _); [left|]. by apply elem_of_nil in Hr. }
  rewrite !reduce_nonempty by done.
  unfold DataFrame. rewrite with_index_app.
  apply reduce_frame_app_dominated.
  - rewrite <- with_index_app. apply DataFrame_labels_NoDup.
  - intros q Hq.
    assert (snd q ∈ stale) as Hs.
    { rewrite <- (with_index_rows (0 + length (r0 :: data))%nat stale).
      by apply list_elem_of_fmap_2. }
    destruct (Hstale _ Hs) as (r & Hr & Hk & Hle).
    destruct (DataFrame_elem_inv (r0 :: data) r Hr) as (p & Hp & <-).
    by exists p.
Qed.

Lemma standings_determined (df df' : list (nat * R)) ks T T' :
  (forall r, r ∈ map snd df <-> r ∈ map snd df') ->
  Forall2 (selected key counter df) ks T ->
  Forall2 (selected key counter df') ks T' ->
  standings key counter T = standings key counter T'.
Proof.
  intros Hrows Hsel. revert T'.
  induction Hsel as [|k p ks T Hp _ IH]; intros T' Hsel'.
  { by apply Forall2_nil_inv_l in Hsel' as ->. }
  apply Forall2_cons_inv_l in Hsel' as (p' & T'' & Hp' & Hsel' & ->).
  unfold standings in *. simpl. rewrite (IH _ Hsel'). f_equal.
  destruct Hp as (Hin & Hk & Hmax). destruct Hp' as (Hin' & Hk' & Hmax').
  f_equal; [congruence|].
  assert (snd p ∈ map snd df') as H1 by (apply Hrows; by apply list_elem_of_fmap_2).
  assert (snd p' ∈ map snd df) as H2 by (apply Hrows; by apply list_elem_of_fmap_2).
  apply list_elem_of_fmap in H1 as (q' & Hq' & Hq'in).
  apply list_elem_of_fmap in H2 as (q & Hq & Hqin).
  assert (counter (snd q') <= counter (snd p')) by (apply Hmax'; [done|congruence]).
  assert (counter (snd q) <= counter (snd p)) by (apply Hmax; [done|congruence]).
  rewrite <- Hq' in *. rewrite <- Hq in *. lia.
Qed.

(** X5: the standings do not depend on the order of arrival: two batches
    with the same records (at least one) in any order reduce to tables with
    the same keys and the same counters, row for row. *)
Theorem standings_of_reordered_batch (data data' : list R) :
  data <> [] -> data ≡ₚ data' ->
  exists T T',
    reduce key_name key counter data = Ok T
    /\ reduce key_name key counter data' = Ok T'
    /\ standings key counter T = standings key counter T'.
Proof.
  intros Hdata Hperm.
  assert (data' <> []) as Hdata'
    by (intros ->; by apply Permutation_nil_r in Hperm).
  rewrite !(reduce_nonempty key_name key counter) by done.
  destruct (reduce_first_spec data) as (T & HT & Hsel).
  destruct (reduce_first_spec data') as (T' & HT' & Hsel').
  apply selected_first_selected in Hsel. apply selected_first_selected in Hsel'.
  exists T, T'. split; [done|]. split; [done|].
  assert (group_keys key (DataFrame data') = group_keys key (DataFrame data)) as Hkeys.
  { apply (StronglySorted_unique String.le); try apply group_keys_sorted.
    apply NoDup_Permutation; try apply group_keys_NoDup.
    intros k. rewrite !group_keys_of_batch. by rewrite Hperm. }
  rewrite Hkeys in Hsel'.
  eapply standings_determined; [|exact Hsel|exact Hsel'].
  intros r. unfold DataFrame. rewrite !with_index_rows. by rewrite Hperm.
Qed.

(** X6: more records never lower the standings: every key of the reduced
    table of a batch with records is still there after records are appended
    to the batch, with a counter at least as large. *)
Theorem reduce_appended_never_lowers (data more : list R) :
  data <> [] ->
  exists T T',
    reduce key_name key counter data = Ok T
    /\ reduce key_name key counter (data ++ more) = Ok T'
    /\ forall p, p ∈ T ->
         exists p', p' ∈ T' /\ key (snd p') = key (snd p)
                    /\ counter (snd p) <= counter (snd p').
Proof.
  intros Hdata.
  rewrite !(reduce_nonempty key_name key counter) by (by destruct data).
  destruct (reduce_first_spec data) as (T & HT & Hsel).
  destruct (reduce_first_spec (data ++ more)) as (T' & HT' & Hsel').
  exists T, T'. split; [done|]. split; [done|]. intros p Hp.
  destruct (selected_first_rows _ _ _ _ Hsel Hp) as (Hdf & _).
  apply DataFrame_elem in Hdf.
  assert (snd p ∈ data ++ more) as Hin by (apply elem_of_app; by left).
  destruct (DataFrame_elem_inv _ _ Hin) as (q & Hq & Hqp).
  assert (key (snd p) ∈ map (fun p => key (snd p)) T') as Hk.
  { rewrite (selected_first_keys _ _ _ Hsel').
    apply group_keys_of_batch. by apply list_elem_of_fmap_2. }
  apply list_elem_of_fmap in Hk as (p' & Hk' & Hp').
  exists p'. split; [done|]. split; [done|].
  destruct (selected_first_rows _ _ _ _ Hsel' Hp') as (_ & _ & Hmax & _).
  rewrite <- Hqp. apply Hmax; [done|]. by rewrite Hqp.
Qed.
End ReduceMore.

(** ** The split and the paginator: chunk sizes, rows out of reach, bad pages *)

(** Chunk [i] exists exactly when its first row does. *)
Lemma chunk_count_spec (n : nat) (rows : Z) (i : nat) :
  0 < rows -> (i < chunk_count n rows)%nat <-> (i * Z.to_nat rows < n)%nat.
Proof.
  intros Hrows. unfold chunk_count.
  destruct (Z.ltb_spec 0 (Z.of_nat n)) as [Hn|Hn]; [|lia].
  pose proof (Z.mul_div_le (Z.of_nat n - 0 - 1) rows Hrows) as Hle.
  pose proof (Z.div_pos (Z.of_nat n - 0 - 1) rows ltac:(lia) Hrows) as Hpos.
  split; intros Hi.
  - assert (Z.of_nat i <= (Z.of_nat n - 0 - 1) / rows) as Hq by lia. nia.
  - assert (Z.of_nat i <= (Z.of_nat n - 0 - 1) / rows); [|lia].
    apply Z.div_le_lower_bound; [done|]. nia.
Qed.

Lemma chunk_count_ceil (n : nat) (rows : Z) :
  0 < rows -> Z.of_nat (chunk_count n rows) = (Z.of_nat n + rows - 1) / rows.
Proof.
  intros Hrows. unfold chunk_count.
  destruct (Z.ltb_spec 0 (Z.of_nat n)) as [Hn|Hn].
  - replace (Z.of_nat n + rows - 1) with (Z.of_nat n - 0 - 1 + 1 * rows) by lia.
    rewrite Z.div_add by lia.
    pose proof (Z.div_pos (Z.of_nat n - 0 - 1) rows ltac:(lia) Hrows). lia.
  - replace (Z.of_nat n) with 0 by lia. rewrite Z.div_small by lia. done.
Qed.

(** X7: for a positive page size the split makes ceil(n / rows) chunks;
    chunk [i] holds the rows from position [i * rows] on, no chunk is empty
    or longer than [rows], and every chunk before the last is full. *)
Theorem split_frame_chunk_sizes {R} (df : list (nat * R)) (rows : Z) :
  0 < rows ->
  exists pages,
    split_frame df rows = Ok pages
    /\ Z.of_nat (length pages) = (Z.of_nat (length df) + rows - 1) / rows
    /\ forall i chunk, pages !! i = Some chunk ->
         chunk = take (Z.to_nat rows) (drop (i * Z.to_nat rows) df)
         /\ (0 < length chunk <= Z.to_nat rows)%nat
         /\ ((S i < length pages)%nat -> length chunk = Z.to_nat rows).
Proof.
  intros Hrows. eexists. split; [by apply split_frame_chunks|].
  rewrite length_map, length_seq.
  split; [by apply chunk_count_ceil|].
  intros i chunk Hi.
  apply list_lookup_fmap_Some in Hi as (j & -> & Hj).
  apply lookup_seq in Hj as [-> Hj]. simpl.
  split; [done|].
  pose proof (proj1 (chunk_count_spec (length df) rows i Hrows) Hj) as Hlt.
  rewrite length_take, length_drop.
  split; [lia|]. intros HS.
  pose proof (proj1 (chunk_count_spec (length df) rows (S i) Hrows) HS). lia.
Qed.

(** X8: a page size of zero makes the split raise [ValueError] (the step of
    [range] is zero); a negative page size makes it return no chunk at all. *)
Theorem split_frame_nonpositive {R} (df : list (nat * R)) (rows : Z) :
  rows <= 0 ->
  split_frame df rows
  = if rows =? 0 then Raise (ValueError "range() arg 3 must not be zero") else Ok [].
Proof.
  intros Hrows. unfold split_frame, py_range.
  destruct (Z.eqb_spec rows 0) as [->|Hne]; [done|].
  destruct (Z.ltb_spec 0 rows); [lia|].
  destruct (Z.ltb_spec (Z.of_nat (length df)) 0); [lia|]. done.
Qed.

Lemma take_chunks {A} (l : list A) (r cnt m : nat) :
  (m <= cnt)%nat ->
  concat (take m (map (fun i => take r (drop (i * r) l)) (seq 0 cnt))) = take (m * r) l.
Proof.
  intros Hm. rewrite <- fmap_take, take_seq, Nat.min_l by done.
  apply concat_chunks.
Qed.

Lemma chunk_count_total_pages (n : nat) (rows : Z) :
  0 < rows -> (0 < n)%nat ->
  chunk_count n rows
  = (Nat.max 1 (n / Z.to_nat rows)
     + if decide (Z.to_nat rows <= n /\ n `mod` Z.to_nat rows <> 0)%nat then 1 else 0)%nat
  /\ (n - Nat.max 1 (n / Z.to_nat rows) * Z.to_nat rows
      = if decide (Z.to_nat rows <= n)%nat then n `mod` Z.to_nat rows else 0)%nat.
Proof.
  intros Hrows Hn.
  pose proof (chunk_count_spec n rows (chunk_count n rows - 1) Hrows) as H1.
  pose proof (chunk_count_spec n rows (chunk_count n rows) Hrows) as H2.
  pose proof (chunk_count_spec n rows 0 Hrows) as H0.
  assert (0 < Z.to_nat rows)%nat as Hr by lia.
  revert H0 H1 H2 Hr.
  generalize (chunk_count n rows) as cnt. generalize (Z.to_nat rows) as r.
  intros r cnt H0 H1 H2 Hr.
  pose proof (Nat.div_mod_eq n r) as Hdm.
  pose proof (Nat.mod_upper_bound n r ltac:(lia)) as Hm.
  assert (0 < cnt)%nat as Hcnt by (apply H0; lia).
  assert ((cnt - 1) * r < n)%nat as Hlo by (apply H1; lia).
  assert (n <= cnt * r)%nat as Hhi.
  { destruct (decide (cnt * r < n)%nat) as [Hc|Hc]; [apply H2 in Hc|]; lia. }
  clear H0 H1 H2.
  revert Hdm Hm. generalize (n / r)%nat as q. generalize (n `mod` r)%nat as m.
  intros m q Hdm Hm.
  assert (cnt - 1 <= q)%nat as A1 by nia.
  assert (m = 0 -> cnt <= q /\ q <= cnt /\ 1 <= q)%nat as A2 by (intros ->; nia).
  assert (m <> 0 -> q < cnt)%nat as A3 by (intros ?; nia).
  assert (r <= n -> 1 <= q)%nat as A4 by (intros ?; nia).
  assert (n < r -> q = 0)%nat as A5 by (intros ?; nia).
  split.
  - destruct (decide (r <= n /\ m <> 0)%nat) as [[? ?]|Hno]; [lia|].
    destruct (decide (m = 0%nat)); [lia|]. assert (n < r)%nat by lia. lia.
  - destruct (decide (r <= n)%nat) as [Hle|Hlt].
    + specialize (A4 Hle). rewrite Nat.max_r by lia. nia.
    + rewrite A5 by lia. simpl. lia.
Qed.

(** X9: the pages the "Page" input accepts are the first [total_pages] chunks;
    together they hold the first [total_pages * rows] rows of the table.  When
    the table has at least [rows] rows and [rows] does not divide their
    number, the split makes one chunk more than [total_pages], and the
    [n mod rows] rows of that chunk are on no page that can be selected. *)
Theorem rows_beyond_total_pages {R} (t : list (nat * R)) (rows : Z) :
  t <> [] -> 0 < rows ->
  let r := Z.to_nat rows in
  let n := length t in
  let tp := Z.to_nat (total_pages t rows) in
  exists pages,
    split_frame t rows = Ok pages
    /\ concat (take tp pages) = take (tp * r) t
    /\ length pages
       = (tp + if decide (r <= n /\ n `mod` r <> 0)%nat then 1 else 0)%nat
    /\ (n - tp * r = if decide (r <= n)%nat then n `mod` r else 0)%nat.
Proof.
  intros Ht Hrows. cbv zeta.
  assert (0 < length t)%nat as Hn by (destruct t; simpl; [done|lia]).
  rewrite spec_total_pages_refines by done. rewrite Nat2Z.id.
  unfold spec_total_pages.
  destruct (chunk_count_total_pages (length t) rows Hrows Hn) as [Hcount Hrest].
  eexists. split; [by apply split_frame_chunks|].
  rewrite length_map, length_seq. split; [|by split].
  apply take_chunks. rewrite Hcount. lia.
Qed.

(** ** The statistics read and the Kafka fetch *)

(** X12: [fetch_voting_stats] returns a pair without drawing an error notice
    only when every call to the database succeeded and both rows had a first
    column, and the pair is then made of those two columns: no partial or
    stale count passes unnoticed. *)
Theorem fetch_voting_stats_clean_read {R} (pg : postgres) (v c : Z) :
  @fetch_voting_stats R pg = ([], Ok (v, c)) <->
  pg_connect pg = Ok tt
  /\ pg_cursor pg = Ok tt
  /\ pg_execute pg "SELECT count(*) FROM voters" = Ok tt
  /\ (exists rest, pg_fetchone pg "SELECT count(*) FROM voters" = Ok (Some (v :: rest)))
  /\ pg_execute pg "SELECT count(*) FROM candidates" = Ok tt
  /\ (exists rest, pg_fetchone pg "SELECT count(*) FROM candidates" = Ok (Some (c :: rest)))
  /\ pg_cursor_close pg = Ok tt
  /\ pg_close pg = Ok tt.
Proof.
  unfold fetch_voting_stats, query_voting_stats, try_except, lift. split.
  - intros H.
    destruct (pg_connect pg) as [[]|]; simpl in H; [|done].
    destruct (pg_cursor pg) as [[]|]; simpl in H; [|done].
    destruct (pg_execute pg "SELECT count(*) FROM voters") as [[]|]; simpl in H; [|done].
    destruct (pg_fetchone pg "SELECT count(*) FROM voters") as [[[|v' rest1]|]|];
      simpl in H; [done| |done|done].
    destruct (pg_execute pg "SELECT count(*) FROM candidates") as [[]|]; simpl in H; [|done].
    destruct (pg_fetchone pg "SELECT count(*) FROM candidates") as [[[|c' rest2]|]|];
      simpl in H; [done| |done|done].
    destruct (pg_cursor_close pg) as [[]|]; simpl in H; [|done].
    destruct (pg_close pg) as [[]|]; simpl in H; [|done].
    injection H as -> ->. repeat split; eauto.
  - intros (-> & -> & -> & [rest1 ->] & -> & [rest2 ->] & -> & ->). done.
Qed.

(** X13: counts that were read are thrown away when closing fails: if both
    queries answered and closing the cursor or the connection then raises,
    the function returns (0, 0) with the error notice, not the counts. *)
Theorem counts_lost_when_close_fails {R} (pg : postgres) (v c : Z) (rest1 rest2 : list Z)
    (e : exn) :
  pg_connect pg = Ok tt ->
  pg_cursor pg = Ok tt ->
  pg_execute pg "SELECT count(*) FROM voters" = Ok tt ->
  pg_fetchone pg "SELECT count(*) FROM voters" = Ok (Some (v :: rest1)) ->
  pg_execute pg "SELECT count(*) FROM candidates" = Ok tt ->
  pg_fetchone pg "SELECT count(*) FROM candidates" = Ok (Some (c :: rest2)) ->
  pg_cursor_close pg = Raise e \/ (pg_cursor_close pg = Ok tt /\ pg_close pg = Raise e) ->
  @fetch_voting_stats R pg
  = ([st_error [Lit "Error fetching voting stats: "; Str (exn_str e)]], Ok (0, 0)).
Proof.
  intros H1 H2 H3 H4 H5 H6 H7.
  apply fetch_voting_stats_raise. unfold query_voting_stats.
  rewrite H1, H2, H3, H4, H5, H6. simpl.
  destruct H7 as [->|[-> ->]]; done.
Qed.

(** [create_kafka_consumer] lets no exception out: it returns the
    consumer and draws nothing, or, when the constructor raised, returns
    [None] after one error notice that carries the exception's text. *)
Lemma create_kafka_consumer_never_raises {R T} (topic : result (consumer T)) :
  @create_kafka_consumer R T topic
  = match topic with
    | Ok c => ([], Ok (Some c))
    | Raise e => ([st_error [Lit "Error creating Kafka consumer: "; Str (exn_str e)]], Ok None)
    end.
Proof. by destruct topic. Qed.

(** X14: [fetch_data_from_kafka] lets no exception out: a poll that succeeds
    yields the values of all partitions, partition after partition, none
    lost or repeated, and draws nothing; a poll that raises yields the empty
    list after one error notice. *)
Theorem fetch_data_from_kafka_flattens {R T} (c : consumer T) :
  match poll c with
  | Ok messages =>
      @fetch_data_from_kafka R T c = ([], Ok (concat messages))
      /\ length (concat messages) = sum_list (map length messages)
  | Raise e =>
      @fetch_data_from_kafka R T c
      = ([st_error [Lit "Error fetching data from Kafka: "; Str (exn_str e)]], Ok [])
  end.
Proof.
  unfold fetch_data_from_kafka, try_except, lift.
  destruct (poll c) as [messages|e]; simpl; [|done].
  split; [done|]. induction messages as [|m ms IH]; simpl; [done|].
  by rewrite length_app, IH.
Qed.

(** ** The refresh pass *)

Lemma bind_returns {R A B} (m : ui R A) (a : A) (k : A -> ui R B) :
  snd m = Ok a -> bind m k = (fst m ++ fst (k a), snd (k a)).
Proof.
  destruct m as [evs r]. simpl. intros ->. unfold bind. by destruct (k a).
Qed.



Section ReducedTable.
Context {R : Type}.
Variable key_name : string.
Variable key : R -> string.
Variable counter : R -> Z.

(** The reduced table of a batch with records: it has rows, with distinct
    labels, each a record of the batch, and for every record a row of its
    key that is at least as large. *)
Lemma reduce_table (data : list R) :
  data <> [] ->
  exists T,
    reduce key_name key counter data = Ok T
    /\ NoDup (map fst T)
    /\ T <> []
    /\ (forall p, p ∈ T -> snd p ∈ data)
    /\ (forall r, r ∈ data ->
          exists q, q ∈ T /\ key (snd q) = key r /\ counter r <= counter (snd q)).
Proof.
  intros Hdata. rewrite (reduce_nonempty key_name key counter data Hdata).
  destruct (reduce_first_spec key counter data) as (T & HT & Hsel).
  pose proof (selected_first_keys key counter _ _ _ Hsel) as Hkeys.
  exists T. split; [done|].
  assert (forall r, r ∈ data ->
            exists q, q ∈ T /\ key (snd q) = key r /\ counter r <= counter (snd q)) as Hrep.
  { intros r Hr.
    assert (key r ∈ map (fun p => key (snd p)) T) as Hk.
    { rewrite Hkeys. apply group_keys_of_batch. by apply list_elem_of_fmap_2. }
    apply list_elem_of_fmap in Hk as (q & Hkq & Hq).
    exists q. split; [done|]. split; [done|].
    destruct (selected_first_rows key counter _ _ _ _ Hsel Hq) as (_ & _ & Hmax & _).
    destruct (DataFrame_elem_inv data r Hr) as (p & Hp & <-).
    apply Hmax; [done|congruence]. }
  split; [|split; [|split; [|done]]].
  - apply (selected_labels_NoDup key counter (DataFrame data)
             (group_keys key (DataFrame data)) T
             (DataFrame_labels_NoDup data) (group_keys_NoDup key (DataFrame data))).
    by apply selected_first_selected.
  - intros ->. destruct data as [|r0 data]; [done|].
    destruct (Hrep r0) as (q & Hq & _); [left|]. by apply elem_of_nil in Hq.
  - intros p Hp.
    destruct (selected_first_rows key counter _ _ _ _ Hsel Hp) as (Hdf & _).
    by apply DataFrame_elem.
Qed.
End ReducedTable.




Lemma show_turnout_run sort_values (w : widgets) (location_data : list turnout_row) T :
  reduce "state" state count location_data = Ok T ->
  show_turnout sort_values w location_data
  = bind (emit (st_header [Lit "Location of Voters"]))
         (fun _ => paginate_table ["state"; "count"] sort_values w (reset_index T)).
Proof.
  intros HT. unfold show_turnout, lift. rewrite HT.
  rewrite (bind_returns ([], Ok T) T) by done. cbn [fst snd app].
  by match goal with |- _ = ?m => destruct m end.
Qed.

(** The paginator with the sort switched off, on a table with rows, with a
    positive page size and a page number the "Page" input accepts. *)
Lemma paginate_table_unsorted {R} columns sort_values (w : widgets) (df : list (nat * R)) :
  df <> [] -> 0 < page_size w -> sort_data w <> "Yes" ->
  1 <= page w <= total_pages df (page_size w) ->
  paginate_table columns sort_values w df
  = ([st_radio "Sort Data" ["Yes"; "No"];
      st_selectbox "Page Size" [Int 10; Int 25; Int 50; Int 100];
      st_number_input "Page" 1 (total_pages df (page_size w)) 1;
      st_markdown [Lit "Page **"; Int (page w); Lit "** of **";
                   Int (total_pages df (page_size w)); Lit "** "];
      st_dataframe (take (Z.to_nat (page_size w))
                         (drop (Z.to_nat (page w - 1) * Z.to_nat (page_size w)) df))],
     Ok tt).
Proof.
  intros Hdf Hps Hsort Hpage.
  pose proof (total_pages_le_chunk_count df (page_size w) Hps Hdf) as Hcnt.
  unfold paginate_table, sort_table.
  assert (df_empty df = false) as -> by (by destruct df).
  destruct (decide (sort_data w = "Yes")) as [|_]; [done|].
  unfold bind, emit, ret, lift.
  rewrite (split_frame_chunks df (page_size w) Hps).
  erewrite py_getitem_lookup; [reflexivity | lia | ].
  rewrite list_lookup_fmap, lookup_seq_lt by lia. done.
Qed.

(** X16: for a turnout batch with records, with the sort switched off, the
    page input at 1 and a positive page size, the turnout section never
    raises and shows the first [page_size] rows of the reduced table
    relabelled from 0 (all of them when there are fewer). *)
Theorem show_turnout_first_page sort_values (w : widgets)
    (location_data : list turnout_row) :
  location_data <> [] -> 0 < page_size w -> page w = 1 -> sort_data w <> "Yes" ->
  snd (show_turnout sort_values w location_data) = Ok tt
  /\ exists T,
       reduce "state" state count location_data = Ok T
       /\ displayed (fst (show_turnout sort_values w location_data))
          = [take (Z.to_nat (page_size w)) (DataFrame (map snd T))].
Proof.
  intros Hdata Hps Hpage Hsort.
  destruct (reduce_table "state" state count location_data Hdata)
    as (T & HT & _ & Hne & _).
  assert (reset_index T <> []) as Hre by (by destruct T).
  rewrite (show_turnout_run sort_values w location_data T HT).
  rewrite (paginate_table_unsorted ["state"; "count"] sort_values w _ Hre Hps Hsort).
  2:{ rewrite Hpage. unfold total_pages. lia. }
  unfold bind, emit. simpl. split; [done|].
  exists T. split; [done|].
  rewrite Hpage. simpl. by rewrite drop_0.
Qed.

Section RefreshPass.
Variable sort_values : list (nat * turnout_row) -> string -> bool -> list (nat * turnout_row).
Hypothesis sort_values_perm :
  forall df by_ asc, map snd (sort_values df by_ asc) ≡ₚ map snd df.




End RefreshPass.

(** X18: with both consumers failing to be created, the pass still shows the
    two statistics, draws one error notice per topic and ends normally; no
    candidate or turnout section is drawn. *)
Theorem update_data_kafka_down sort_values (w : world) (e1 e2 : exn) :
  votes_topic w = Raise e1 -> turnout_topic w = Raise e2 ->
  exists v c,
    snd (@fetch_voting_stats turnout_row (db w)) = Ok (v, c)
    /\ update_data sort_values w
       = (st_text [Lit "Last refreshed at: "; Str (clock_text w)]
          :: fst (@fetch_voting_stats turnout_row (db w))
          ++ [st_markdown [Lit "---"];
              st_metric "Total Voters" v;
              st_metric "Total Candidates" c;
              st_error [Lit "Error creating Kafka consumer: "; Str (exn_str e1)];
              st_error [Lit "Error creating Kafka consumer: "; Str (exn_str e2)];
              st_session_state "last_update" (clock w)],
          Ok tt).
Proof.
  intros H1 H2.
  destruct (@fetch_voting_stats_returns turnout_row (db w)) as (evs & [v c] & Hf).
  exists v, c. unfold update_data. rewrite H1, H2, Hf. done.
Qed.

(** X19: when both polls succeed and bring no message, the pass draws
    nothing for the two topics, no section and no notice: its log is the
    refresh time, what the statistics read drew (nothing, or its one error
    notice), the separator and the two statistics; it then records
    [last_update] and ends normally. *)
Theorem update_data_no_data sort_values (w : world) c1 c2 ms1 ms2 :
  votes_topic w = Ok c1 -> poll c1 = Ok ms1 -> concat ms1 = [] ->
  turnout_topic w = Ok c2 -> poll c2 = Ok ms2 -> concat ms2 = [] ->
  exists v c,
    snd (@fetch_voting_stats turnout_row (db w)) = Ok (v, c)
    /\ update_data sort_values w
       = (st_text [Lit "Last refreshed at: "; Str (clock_text w)]
          :: fst (@fetch_voting_stats turnout_row (db w))
          ++ [st_markdown [Lit "---"];
              st_metric "Total Voters" v;
              st_metric "Total Candidates" c;
              st_session_state "last_update" (clock w)],
          Ok tt).
Proof.
  intros H1 H2 H3 H4 H5 H6.
  destruct (@fetch_voting_stats_returns turnout_row (db w)) as (evs & [v c] & Hf).
  exists v, c. unfold update_data, fetch_data_from_kafka, create_kafka_consumer.
  rewrite H1, H4, Hf. unfold lift. simpl. rewrite H2, H5. simpl. rewrite H3, H6. done.
Qed.

(** ** The further properties at concrete inputs *)

Lemma reduce_ignores_stale_witness :
  (forall s, s ∈ [vote "A" 7; vote "B" 30] ->
     exists r, r ∈ [vote "A" 10; vote "B" 30]
               /\ candidate_id r = candidate_id s /\ total_votes s <= total_votes r)
  /\ reduce "candidate_id" candidate_id total_votes
       ([vote "A" 10; vote "B" 30] ++ [vote "A" 7; vote "B" 30])
     = reduce "candidate_id" candidate_id total_votes [vote "A" 10; vote "B" 30].
Proof.
  assert (forall s, s ∈ [vote "A" 7; vote "B" 30] ->
            exists r, r ∈ [vote "A" 10; vote "B" 30]
                      /\ candidate_id r = candidate_id s /\ total_votes s <= total_votes r) as H.
  { intros s Hs. apply elem_of_cons in Hs as [->|Hs].
    - exists (vote "A" 10). split; [left|]. split; [reflexivity|]. vm_compute. discriminate.
    - apply elem_of_cons in Hs as [->|Hs]; [|by apply elem_of_nil in Hs].
      exists (vote "B" 30). split; [right; left|]. split; [reflexivity|]. vm_compute. discriminate. }
  split; [exact H|].
  exact (reduce_ignores_stale "candidate_id" candidate_id total_votes _ _ H).
Defined.

Lemma standings_of_reordered_batch_witness :
  [vote "A" 10; vote "B" 30; vote "A" 25] <> []
  /\ [vote "A" 10; vote "B" 30; vote "A" 25] ≡ₚ [vote "B" 30; vote "A" 10; vote "A" 25]
  /\ exists T T',
       reduce "candidate_id" candidate_id total_votes
         [vote "A" 10; vote "B" 30; vote "A" 25] = Ok T
       /\ reduce "candidate_id" candidate_id total_votes
            [vote "B" 30; vote "A" 10; vote "A" 25] = Ok T'
       /\ standings candidate_id total_votes T = standings candidate_id total_votes T'.
Proof.
  assert ([vote "A" 10; vote "B" 30; vote "A" 25] <> []) as H0 by discriminate.
  assert ([vote "A" 10; vote "B" 30; vote "A" 25]
          ≡ₚ [vote "B" 30; vote "A" 10; vote "A" 25]) as H by apply perm_swap.
  split; [exact H0|]. split; [exact H|].
  exact (standings_of_reordered_batch "candidate_id" candidate_id total_votes _ _ H0 H).
Defined.

Lemma reduce_sorted_by_key_witness :
  [vote "B" 30; vote "A" 10; vote "A" 25] <> []
  /\ exists T,
       reduce "candidate_id" candidate_id total_votes
         [vote "B" 30; vote "A" 10; vote "A" 25] = Ok T
       /\ StronglySorted (strict String.le) (map (fun p => candidate_id (snd p)) T).
Proof.
  assert ([vote "B" 30; vote "A" 10; vote "A" 25] <> []) as H by discriminate.
  split; [exact H|].
  exact (reduce_sorted_by_key "candidate_id" candidate_id total_votes _ H).
Defined.

Lemma reduce_keeps_first_maximum_witness :
  [vote "B" 30; vote "A" 25; vote "A" 25] <> []
  /\ exists T,
       reduce "candidate_id" candidate_id total_votes
         [vote "B" 30; vote "A" 25; vote "A" 25] = Ok T
       /\ forall l r, (l, r) ∈ T ->
            [vote "B" 30; vote "A" 25; vote "A" 25] !! l = Some r
            /\ forall j r', (j < l)%nat ->
                 [vote "B" 30; vote "A" 25; vote "A" 25] !! j = Some r' ->
                 candidate_id r' = candidate_id r ->
                 total_votes r' < total_votes r.
Proof.
  assert ([vote "B" 30; vote "A" 25; vote "A" 25] <> []) as H by discriminate.
  split; [exact H|].
  exact (reduce_keeps_first_maximum "candidate_id" candidate_id total_votes _ H).
Defined.

Lemma reduce_appended_never_lowers_witness :
  [vote "A" 10; vote "B" 30] <> []
  /\ exists T T',
       reduce "candidate_id" candidate_id total_votes [vote "A" 10; vote "B" 30] = Ok T
       /\ reduce "candidate_id" candidate_id total_votes
            ([vote "A" 10; vote "B" 30] ++ [vote "A" 25; vote "C" 1]) = Ok T'
       /\ forall p, p ∈ T ->
            exists p', p' ∈ T' /\ candidate_id (snd p') = candidate_id (snd p)
                       /\ total_votes (snd p) <= total_votes (snd p').
Proof.
  assert ([vote "A" 10; vote "B" 30] <> []) as H by discriminate.
  split; [exact H|].
  exact (reduce_appended_never_lowers "candidate_id" candidate_id total_votes
           [vote "A" 10; vote "B" 30] [vote "A" 25; vote "C" 1] H).
Defined.

Lemma split_frame_chunk_sizes_witness :
  0 < 10
  /\ exists pages,
       split_frame table23 10 = Ok pages
       /\ Z.of_nat (length pages) = (Z.of_nat (length table23) + 10 - 1) / 10
       /\ forall i chunk, pages !! i = Some chunk ->
            chunk = take (Z.to_nat 10) (drop (i * Z.to_nat 10) table23)
            /\ (0 < length chunk <= Z.to_nat 10)%nat
            /\ ((S i < length pages)%nat -> length chunk = Z.to_nat 10).
Proof. split; [reflexivity|]. exact (split_frame_chunk_sizes table23 10 eq_refl). Defined.

Lemma split_frame_nonpositive_witness :
  -5 <= 0
  /\ split_frame table23 (-5)
     = if -5 =? 0 then Raise (ValueError "range() arg 3 must not be zero") else Ok [].
Proof.
  assert (-5 <= 0) as H by (vm_compute; discriminate).
  split; [exact H|]. exact (split_frame_nonpositive table23 (-5) H).
Defined.

Lemma rows_beyond_total_pages_witness :
  table23 <> [] /\ 0 < 10
  /\ exists pages,
       split_frame table23 10 = Ok pages
       /\ concat (take (Z.to_nat (total_pages table23 10)) pages)
          = take (Z.to_nat (total_pages table23 10) * Z.to_nat 10) table23
       /\ length pages
          = (Z.to_nat (total_pages table23 10)
             + if decide (Z.to_nat 10 <= length table23
                          /\ length table23 `mod` Z.to_nat 10 <> 0)%nat
               then 1 else 0)%nat
       /\ (length table23 - Z.to_nat (total_pages table23 10) * Z.to_nat 10
           = if decide (Z.to_nat 10 <= length table23)%nat
             then length table23 `mod` Z.to_nat 10 else 0)%nat.
Proof.
  assert (table23 <> []) as H by (vm_compute; discriminate).
  split; [exact H|]. split; [reflexivity|].
  exact (rows_beyond_total_pages table23 10 H eq_refl).
Defined.

Lemma counts_lost_when_close_fails_witness :
  pg_connect db_close_fails = Ok tt
  /\ pg_cursor db_close_fails = Ok tt
  /\ pg_execute db_close_fails "SELECT count(*) FROM voters" = Ok tt
  /\ pg_fetchone db_close_fails "SELECT count(*) FROM voters" = Ok (Some [7])
  /\ pg_execute db_close_fails "SELECT count(*) FROM candidates" = Ok tt
  /\ pg_fetchone db_close_fails "SELECT count(*) FROM candidates" = Ok (Some [3])
  /\ (pg_cursor_close db_close_fails = Raise (OtherError "cursor already closed")
      \/ (pg_cursor_close db_close_fails = Ok tt
          /\ pg_close db_close_fails = Raise (OtherError "cursor already closed")))
  /\ @fetch_voting_stats turnout_row db_close_fails
     = ([st_error [Lit "Error fetching voting stats: ";
                   Str (exn_str (OtherError "cursor already closed"))]], Ok (0, 0)).
Proof.
  do 6 (split; [reflexivity|]). split; [left; reflexivity|].
  exact (counts_lost_when_close_fails db_close_fails 7 3 [] []
           (OtherError "cursor already closed")
           eq_refl eq_refl eq_refl eq_refl eq_refl eq_refl (or_introl eq_refl)).
Defined.


Lemma show_turnout_first_page_witness :
  map snd table23 <> []
  /\ 0 < page_size (pages_of_10 1)
  /\ page (pages_of_10 1) = 1
  /\ sort_data (pages_of_10 1) <> "Yes"
  /\ snd (show_turnout sort_values_stable (pages_of_10 1) (map snd table23)) = Ok tt
  /\ exists T,
       reduce "state" state count (map snd table23) = Ok T
       /\ displayed (fst (show_turnout sort_values_stable (pages_of_10 1) (map snd table23)))
          = [take (Z.to_nat (page_size (pages_of_10 1))) (DataFrame (map snd T))].
Proof.
  assert (map snd table23 <> []) as H by (vm_compute; discriminate).
  assert (sort_data (pages_of_10 1) <> "Yes") as Hs by (vm_compute; discriminate).
  split; [exact H|]. split; [reflexivity|]. split; [reflexivity|]. split; [exact Hs|].
  exact (show_turnout_first_page sort_values_stable (pages_of_10 1) (map snd table23)
           H eq_refl eq_refl Hs).
Defined.


Lemma update_data_kafka_down_witness :
  votes_topic world_kafka_down = Raise (OtherError "NoBrokersAvailable")
  /\ turnout_topic world_kafka_down = Raise (OtherError "NoBrokersAvailable")
  /\ exists v c,
       snd (@fetch_voting_stats turnout_row (db world_kafka_down)) = Ok (v, c)
       /\ update_data sort_values_stable world_kafka_down
          = (st_text [Lit "Last refreshed at: "; Str (clock_text world_kafka_down)]
             :: fst (@fetch_voting_stats turnout_row (db world_kafka_down))
             ++ [st_markdown [Lit "---"];
                 st_metric "Total Voters" v;
                 st_metric "Total Candidates" c;
                 st_error [Lit "Error creating Kafka consumer: ";
                           Str (exn_str (OtherError "NoBrokersAvailable"))];
                 st_error [Lit "Error creating Kafka consumer: ";
                           Str (exn_str (OtherError "NoBrokersAvailable"))];
                 st_session_state "last_update" (clock world_kafka_down)],
             Ok tt).
Proof.
  split; [reflexivity|]. split; [reflexivity|].
  exact (update_data_kafka_down sort_values_stable world_kafka_down
           (OtherError "NoBrokersAvailable") (OtherError "NoBrokersAvailable")
           eq_refl eq_refl).
Defined.

Lemma update_data_no_data_witness :
  votes_topic world_silent = Ok {| poll := Ok [[]; []] |}
  /\ poll {| poll := Ok ([[]; []] : list (list vote_row)) |} = Ok [[]; []]
  /\ concat ([[]; []] : list (list vote_row)) = []
  /\ turnout_topic world_silent = Ok {| poll := Ok [] |}
  /\ poll {| poll := Ok ([] : list (list turnout_row)) |} = Ok []
  /\ concat ([] : list (list turnout_row)) = []
  /\ exists v c,
       snd (@fetch_voting_stats turnout_row (db world_silent)) = Ok (v, c)
       /\ update_data sort_values_stable world_silent
          = (st_text [Lit "Last refreshed at: "; Str (clock_text world_silent)]
             :: fst (@fetch_voting_stats turnout_row (db world_silent))
             ++ [st_markdown [Lit "---"];
                 st_metric "Total Voters" v;
                 st_metric "Total Candidates" c;
                 st_session_state "last_update" (clock world_silent)],
             Ok tt).
Proof.
  do 6 (split; [reflexivity|]).
  exact (update_data_no_data sort_values_stable world_silent
           {| poll := Ok [[]; []] |} {| poll := Ok [] |} [[]; []] []
           eq_refl eq_refl eq_refl eq_refl eq_refl eq_refl).
Defined.
